(** * Drowsiness inference and alerting engine of [src/app/page.tsx]

    A shallow embedding of the decision core of the page component: the two
    aspect-ratio functions, [analyzeDrowsinessPattern] with the history
    buffer it mutates, the alert decision of [detectFaceAndEyes],
    [triggerAlert] / [dismissAlert] and the session bookkeeping.

    Numbers.  A JavaScript [number] is an IEEE-754 binary64 value; it is
    embedded as Rocq's primitive [float], whose operations are the same
    correctly rounded binary64 operations.  Values that the program only
    ever obtains from [Date.now()] or from array lengths are integers far
    below 2^53 and are embedded as [Z].

    State.  React state ([config], [alertState], [lastAlertTime], [stats],
    [analytics]) is written through setters and read by a callback from
    the closure it was created with; refs ([detectionHistoryRef],
    [lastBlinkRef]) are read and written in place.  The detection loop
    re-queues the callback that is running, so a whole run of the loop
    reads the state values of its start. *)

From Stdlib Require Import ZArith List String Bool Lia.
From Stdlib Require Import Floats.
From Stdlib Require Import DecimalString.
Import ListNotations.

Set Implicit Arguments.
Set Warnings "-inexact-float".

(** ** Failure: reading a property of [undefined] *)

Inductive result (A : Type) : Type :=
| Ok (a : A)
| TypeError.
Arguments Ok {A} a.
Arguments TypeError {A}.

Definition bind {A B : Type} (r : result A) (k : A -> result B) : result B :=
  match r with
  | Ok a => k a
  | TypeError => TypeError
  end.

Notation "x <- e ;; k" := (bind e (fun x => k))
  (at level 61, e at next level, right associativity).

(** ** Geometry of the landmarks *)

Record Point (num : Type) : Type := mkPoint { x : num; y : num }.
Arguments mkPoint {num} x y.

Section Geometry.

(** [Math.pow(v, 2)]: the square (exact whenever the square is
    representable, as in every concrete evaluation below). *)
Definition Math_pow2 (v : float) : float := PrimFloat.mul v v.

(** [points[i].x] / [points[i].y]: an index past the end yields
    [undefined], and reading a property of it throws. *)
Definition at_ (points : list (Point float)) (i : nat) : result (Point float) :=
  match nth_error points i with
  | Some p => Ok p
  | None => TypeError
  end.

Definition calculateEyeAspectRatio (eyePoints : list (Point float)) : result float :=
  if (List.length eyePoints <? 6)%nat then Ok 0%float else
  p1 <- at_ eyePoints 1 ;; p5 <- at_ eyePoints 5 ;;
  let v1 := PrimFloat.sqrt (PrimFloat.add (Math_pow2 (PrimFloat.sub (x p1) (x p5))) (Math_pow2 (PrimFloat.sub (y p1) (y p5)))) in
  p2 <- at_ eyePoints 2 ;; p4 <- at_ eyePoints 4 ;;
  let v2 := PrimFloat.sqrt (PrimFloat.add (Math_pow2 (PrimFloat.sub (x p2) (x p4))) (Math_pow2 (PrimFloat.sub (y p2) (y p4)))) in
  p0 <- at_ eyePoints 0 ;; p3 <- at_ eyePoints 3 ;;
  let h := PrimFloat.sqrt (PrimFloat.add (Math_pow2 (PrimFloat.sub (x p0) (x p3))) (Math_pow2 (PrimFloat.sub (y p0) (y p3)))) in
  Ok (PrimFloat.div (PrimFloat.add v1 v2) (PrimFloat.mul 2%float h)).

Definition calculateMouthAspectRatio (mouthPoints : list (Point float)) : result float :=
  if (List.length mouthPoints <? 6)%nat then Ok 0%float else
  p2 <- at_ mouthPoints 2 ;; p6 <- at_ mouthPoints 6 ;;
  let v1 := PrimFloat.sqrt (PrimFloat.add (Math_pow2 (PrimFloat.sub (x p2) (x p6))) (Math_pow2 (PrimFloat.sub (y p2) (y p6)))) in
  p3 <- at_ mouthPoints 3 ;; p7 <- at_ mouthPoints 7 ;;
  let v2 := PrimFloat.sqrt (PrimFloat.add (Math_pow2 (PrimFloat.sub (x p3) (x p7))) (Math_pow2 (PrimFloat.sub (y p3) (y p7)))) in
  p0 <- at_ mouthPoints 0 ;; p4 <- at_ mouthPoints 4 ;;
  let h := PrimFloat.sqrt (PrimFloat.add (Math_pow2 (PrimFloat.sub (x p0) (x p4))) (Math_pow2 (PrimFloat.sub (y p0) (y p4)))) in
  Ok (PrimFloat.div (PrimFloat.add v1 v2) (PrimFloat.mul 2%float h)).

(** uniform scaling of a point set, for the scale-invariance property *)
Definition scale (k : float) (points : list (Point float)) : list (Point float) :=
  map (fun p => mkPoint (PrimFloat.mul k (x p)) (PrimFloat.mul k (y p))) points.

End Geometry.

(** ** JavaScript number helpers (binary64) *)

(** [Math.max(a, b)]: NaN if either argument is NaN, and +0 above -0. *)
Definition Math_max (a b : float) : float :=
  if (PrimFloat.is_nan a || PrimFloat.is_nan b)%bool then nan
  else if PrimFloat.ltb a b then b
  else if PrimFloat.ltb b a then a
  else if PrimFloat.get_sign a then b else a.

(** [Math.min(a, b)]: NaN if either argument is NaN, and -0 below +0. *)
Definition Math_min (a b : float) : float :=
  if (PrimFloat.is_nan a || PrimFloat.is_nan b)%bool then nan
  else if PrimFloat.ltb a b then a
  else if PrimFloat.ltb b a then b
  else if PrimFloat.get_sign a then a else b.

(** an integer-valued number (a count, a configured frame count) as
    binary64; exact for the magnitudes that occur, far below 2^53 *)
Definition Z2F (z : Z) : float :=
  if (z <? 0)%Z then PrimFloat.opp (PrimFloat.of_uint63 (Uint63.of_Z (- z)))
  else PrimFloat.of_uint63 (Uint63.of_Z z).

(** [arr.slice(start)] *)
Definition slice {T : Type} (start : Z) (arr : list T) : list T :=
  let len := Z.of_nat (List.length arr) in
  let k := if (start <? 0)%Z then Z.max (len + start) 0 else Z.min start len in
  skipn (Z.to_nat k) arr.

(** [arr.push(v)] and [arr.shift()] (a shift of the empty array does nothing) *)
Definition push {T : Type} (arr : list T) (v : T) : list T := arr ++ [v].
Definition shift {T : Type} (arr : list T) : list T := tl arr.

(** decimal rendering of an integer inside a template literal *)
Definition string_of_Z (z : Z) : string := NilZero.string_of_int (Z.to_int z).

(** [Math.round(d / 1000)] for an integer number of milliseconds [d] *)
Definition round_seconds (d : Z) : Z := ((d + 500) / 1000)%Z.

(** ** Data model *)

Inductive Level : Type := low | medium | high | critical.

Definition Level_eqb (a b : Level) : bool :=
  match a, b with
  | low, low | medium, medium | high, high | critical, critical => true
  | _, _ => false
  end.

Definition level_name (l : Level) : string :=
  match l with
  | low => "low" | medium => "medium" | high => "high" | critical => "critical"
  end.

Record DrowsinessConfig : Type := {
  earThreshold : float;
  consecutiveFrames : Z;
  blinkThreshold : float;
  yawnThreshold : float;
  alertCooldown : Z
}.

Record DetectionHistory : Type := {
  earValues : list float;
  blinkStates : list bool;
  timestamps : list Z;
  maxHistoryLength : Z;
  eyeClosureStartTime : option Z;
  lastEyeClosureDuration : Z
}.

Record AlertState : Type := {
  isActive : bool;
  level : Level;
  message : string;
  timestamp : Z
}.

(** the value returned by [analyzeDrowsinessPattern] *)
Record Analysis : Type := {
  isDrowsy : bool;
  blinkRate : Z;
  avgEAR : float;
  drowsinessScore : float;
  alertLevel : Level;
  alertMessage : string;
  eyeClosureDuration : Z;
  isSustainedClosure : bool
}.

Definition default_config : DrowsinessConfig := {|
  earThreshold := 0.25;
  consecutiveFrames := 10;
  blinkThreshold := 0.2;
  yawnThreshold := 0.6;
  alertCooldown := 3000
|}.

(** initial value of [detectionHistoryRef] (also what [resetSettings] installs) *)
Definition initial_history : DetectionHistory := {|
  earValues := [];
  blinkStates := [];
  timestamps := [];
  maxHistoryLength := 100;
  eyeClosureStartTime := None;
  lastEyeClosureDuration := 0
|}.

(** ** [analyzeDrowsinessPattern] *)

(** the [reduce] that counts the blinks of the last minute *)
Definition countRecentBlinks (ts : list Z) (blinks : list bool) (oneMinuteAgo : Z) : Z :=
  fold_left
    (fun count '(index, t) =>
       if ((oneMinuteAgo <? t)%Z && nth index blinks false)%bool
       then (count + 1)%Z else count)
    (combine (seq 0 (List.length ts)) ts) 0%Z.

(** the open/closed tracking of the eyes: the new [eyeClosureStartTime],
    the new [lastEyeClosureDuration] and the local [eyeClosureDuration] *)
Definition trackClosure (history : DetectionHistory) (isEyesClosed : bool) (now : Z)
    : option Z * Z * Z :=
  if isEyesClosed then
    (* Eyes are closed *)
    let start := match eyeClosureStartTime history with
                 | None => now       (* Start tracking eye closure *)
                 | Some s => s
                 end in
    (Some start, lastEyeClosureDuration history, (now - start)%Z)
  else
    (* Eyes are open *)
    match eyeClosureStartTime history with
    | Some s => (None, (now - s)%Z, 0%Z)   (* Eyes just opened *)
    | None => (None, lastEyeClosureDuration history, 0%Z)
    end.

(** the cascade that derives [alertLevel] and [alertMessage] *)
Definition deriveAlert (sustained : bool) (score : float) (isDrowsy : bool)
    (duration : Z) : Level * string :=
  if sustained then
    (critical,
     ("CRITICAL: Eyes closed for " ++ string_of_Z (round_seconds duration)
        ++ " seconds! Wake up immediately!")%string)
  else if PrimFloat.ltb 80 score then
    (critical, "CRITICAL: Severe drowsiness detected! Please stop and rest immediately."%string)
  else if PrimFloat.ltb 60 score then
    (high, "HIGH ALERT: Significant drowsiness detected. Consider taking a break."%string)
  else if PrimFloat.ltb 40 score then
    (medium, "MODERATE: Drowsiness signs detected. Stay alert."%string)
  else if isDrowsy then
    (low, "NOTICE: Mild drowsiness detected."%string)
  else (low, ""%string).

Definition analyzeDrowsinessPattern (config : DrowsinessConfig)
    (history : DetectionHistory) (currentEAR : float) (now : Z)
    : DetectionHistory * Analysis :=
  (* Add current values to history *)
  let ears := push (earValues history) currentEAR in
  let tss := push (timestamps history) now in
  (* Maintain history length *)
  let over := (maxHistoryLength history <? Z.of_nat (List.length ears))%Z in
  let ears := if over then shift ears else ears in
  let tss := if over then shift tss else tss in
  let blinks := if over then shift (blinkStates history) else blinkStates history in
  let isEyesClosed := PrimFloat.ltb currentEAR (earThreshold config) in
  let closure := trackClosure history isEyesClosed now in
  let duration := snd closure in
  (* Detect blink vs sustained closure *)
  let isBlink := (isEyesClosed && (duration <? 500)%Z)%bool in
  let sustained := (3000 <=? duration)%Z in
  let blinks := push blinks isBlink in
  (* Count blinks in the last minute *)
  let oneMinuteAgo := (now - 60000)%Z in
  let recentBlinks := countRecentBlinks tss blinks oneMinuteAgo in
  (* Calculate average EAR over recent history *)
  let avg :=
    if (0 <? List.length ears)%nat
    then PrimFloat.div (fold_left PrimFloat.add ears 0%float)
                       (Z2F (Z.of_nat (List.length ears)))
    else 0%float in
  (* Check for sustained low EAR *)
  let recentLowEARCount :=
    List.length (filter (fun ear => PrimFloat.ltb ear (earThreshold config))
                        (slice (- consecutiveFrames config) ears)) in
  let drowsy :=
    PrimFloat.leb (PrimFloat.mul (Z2F (consecutiveFrames config)) 0.8)
                  (Z2F (Z.of_nat recentLowEARCount)) in
  (* Calculate drowsiness score (0-100) *)
  let earScore :=
    Math_max 0 (PrimFloat.mul
                  (PrimFloat.div (PrimFloat.sub (earThreshold config) avg)
                                 (earThreshold config)) 100) in
  let blinkScore :=
    Math_max 0 (PrimFloat.mul (PrimFloat.div (Z2F (15 - recentBlinks)) 15) 100) in
  let score := Math_min 100 (PrimFloat.div (PrimFloat.add earScore blinkScore) 2) in
  let score := if sustained then Math_max score 95 else score in
  let alert := deriveAlert sustained score drowsy duration in
  ({| earValues := ears;
      blinkStates := blinks;
      timestamps := tss;
      maxHistoryLength := maxHistoryLength history;
      eyeClosureStartTime := fst (fst closure);
      lastEyeClosureDuration := snd (fst closure) |},
   {| isDrowsy := drowsy || sustained;
      blinkRate := recentBlinks;
      avgEAR := avg;
      drowsinessScore := score;
      alertLevel := fst alert;
      alertMessage := snd alert;
      eyeClosureDuration := duration;
      isSustainedClosure := sustained |}).

(** ** Alert state: [triggerAlert], [dismissAlert], the auto-dismiss timer *)

(** one call of [triggerAlert]: what the alert sinks are driven with *)
Record AlertEvent : Type := {
  ev_level : Level;
  ev_message : string;
  ev_timestamp : Z
}.

Record Stats : Type := {
  eyeAspectRatio : float;
  blinkCount : Z;
  alertCount : Z;
  faceDetected : bool;
  stats_blinkRate : Z;
  stats_avgEAR : float;
  stats_drowsinessScore : float;
  stats_eyeClosureDuration : Z;
  currentEAR : float
}.

Record SessionData : Type := {
  id : string;
  startTime : Z;
  endTime : option Z;
  duration : Z;
  totalBlinks : Z;
  totalAlerts : Z;
  session_avgEAR : float;
  maxDrowsinessScore : float;
  alertsByLevel : list (string * Z);
  earHistory : list (Z * float);
  drowsinessHistory : list (Z * float)
}.

Record RealTimePoint : Type := {
  rt_timestamp : Z;
  rt_ear : float;
  rt_drowsiness : float;
  rt_blinks : Z
}.

Record AnalyticsData : Type := {
  currentSession : option SessionData;
  sessions : list SessionData;
  realTimeData : list RealTimePoint;
  maxDataPoints : Z
}.

Inductive DetectionStatus : Type := idle | active | drowsy.

(** The mutable state of the component that the decision core reads and
    writes.  A state setter updates the state at the call; refs are read
    and written in place.  What a running callback reads of the state is
    not this record but the values its closure captured (see [Closure]
    below). *)
Record Engine : Type := {
  config : DrowsinessConfig;
  history : DetectionHistory;          (* detectionHistoryRef.current *)
  lastBlink : Z;                       (* lastBlinkRef.current *)
  consecutiveDrowsyFrames : Z;         (* consecutiveDrowsyFramesRef.current *)
  detectionStatus : DetectionStatus;
  stats : Stats;
  alertState : AlertState;
  lastAlertTime : Z;
  alertTimeout : option Z;             (* armed auto-dismiss timer, its delay *)
  analytics : AnalyticsData;
  emitted : list AlertEvent            (* calls of triggerAlert, oldest first *)
}.

Definition set_alert (e : Engine) (a : AlertState) (tmo : option Z)
    (evs : list AlertEvent) : Engine :=
  {| config := config e; history := history e; lastBlink := lastBlink e;
     consecutiveDrowsyFrames := consecutiveDrowsyFrames e;
     detectionStatus := detectionStatus e; stats := stats e;
     alertState := a; lastAlertTime := lastAlertTime e;
     alertTimeout := tmo; analytics := analytics e; emitted := evs |}.

Definition set_lastAlertTime (e : Engine) (t : Z) : Engine :=
  {| config := config e; history := history e; lastBlink := lastBlink e;
     consecutiveDrowsyFrames := consecutiveDrowsyFrames e;
     detectionStatus := detectionStatus e; stats := stats e;
     alertState := alertState e; lastAlertTime := t;
     alertTimeout := alertTimeout e; analytics := analytics e;
     emitted := emitted e |}.

Definition timeoutDuration (lvl : Level) : Z :=
  match lvl with
  | critical => 10000
  | high => 7000
  | _ => 5000
  end.

(** [triggerAlert(level, message)], [now] being its [Date.now()].  The
    sound, notification and vibration it drives are represented by the
    event appended to [emitted]; the pending timer is replaced. *)
Definition triggerAlert (lvl : Level) (msg : string) (now : Z) (e : Engine) : Engine :=
  set_alert e
    {| isActive := true; level := lvl; message := msg; timestamp := now |}
    (Some (timeoutDuration lvl))
    (emitted e ++ [{| ev_level := lvl; ev_message := msg; ev_timestamp := now |}]).

Definition deactivate (a : AlertState) : AlertState :=
  {| isActive := false; level := level a; message := message a;
     timestamp := timestamp a |}.

Definition dismissAlert (e : Engine) : Engine :=
  set_alert e (deactivate (alertState e)) None (emitted e).

(** the callback of the auto-dismiss timer, when it fires *)
Definition autoDismiss (e : Engine) : Engine :=
  match alertTimeout e with
  | Some _ => set_alert e (deactivate (alertState e)) None (emitted e)
  | None => e
  end.

(** ** Sessions: [startSession], [endSession], [updateAnalytics] *)

Definition newSession (t_id t_start : Z) : SessionData := {|
  id := ("session_" ++ string_of_Z t_id)%string;
  startTime := t_start;
  endTime := None;
  duration := 0;
  totalBlinks := 0;
  totalAlerts := 0;
  session_avgEAR := 0;
  maxDrowsinessScore := 0;
  alertsByLevel := [("low", 0); ("medium", 0); ("high", 0); ("critical", 0)]%string%Z;
  earHistory := [];
  drowsinessHistory := []
|}.

Definition startSession (t_id t_start : Z) (prev : AnalyticsData) : AnalyticsData :=
  {| currentSession := Some (newSession t_id t_start);
     sessions := sessions prev;
     realTimeData := realTimeData prev;
     maxDataPoints := maxDataPoints prev |}.

Definition endSession (st : Stats) (t_end t_dur : Z) (prev : AnalyticsData)
    : AnalyticsData :=
  match currentSession prev with
  | None => prev
  | Some cs =>
      let endedSession := {|
        id := id cs;
        startTime := startTime cs;
        endTime := Some t_end;
        duration := t_dur - startTime cs;
        totalBlinks := blinkCount st;
        totalAlerts := alertCount st;
        session_avgEAR := stats_avgEAR st;
        maxDrowsinessScore := Math_max (maxDrowsinessScore cs) (stats_drowsinessScore st);
        alertsByLevel := alertsByLevel cs;
        earHistory := earHistory cs;
        drowsinessHistory := drowsinessHistory cs |} in
      {| currentSession := None;
         sessions := endedSession :: firstn 49 (sessions prev);
         realTimeData := realTimeData prev;
         maxDataPoints := maxDataPoints prev |}
  end.

(** [obj[key] = (obj[key] || 0) + 1].  The program performs it in place on
    the [alertsByLevel] object that the spread shares with the previous
    session value; that previous value is not read again. *)
Fixpoint bump (key : string) (obj : list (string * Z)) : list (string * Z) :=
  match obj with
  | [] => [(key, 1%Z)]
  | (k, v) :: rest =>
      if String.eqb k key then (k, (v + 1)%Z) :: rest
      else (k, v) :: bump key rest
  end.

Definition updateAnalytics (blinks : Z) (earValue score : float)
    (lvl : option Level) (now : Z) (prev : AnalyticsData) : AnalyticsData :=
  let newRealTimeData :=
    slice (- maxDataPoints prev)
      (realTimeData prev ++
       [{| rt_timestamp := now; rt_ear := earValue; rt_drowsiness := score;
           rt_blinks := blinks |}]) in
  let updatedSession :=
    match currentSession prev with
    | None => None
    | Some cs =>
        Some {|
          id := id cs;
          startTime := startTime cs;
          endTime := endTime cs;
          duration := now - startTime cs;
          totalBlinks := totalBlinks cs;
          totalAlerts := totalAlerts cs;
          session_avgEAR := session_avgEAR cs;
          maxDrowsinessScore := Math_max (maxDrowsinessScore cs) score;
          alertsByLevel :=
            match lvl with
            | Some l => bump (level_name l) (alertsByLevel cs)
            | None => alertsByLevel cs
            end;
          earHistory := slice (-1000) (earHistory cs ++ [(now, earValue)]);
          drowsinessHistory := slice (-1000) (drowsinessHistory cs ++ [(now, score)]) |}
    end in
  {| currentSession := updatedSession;
     sessions := sessions prev;
     realTimeData := newRealTimeData;
     maxDataPoints := maxDataPoints prev |}.

(** ** [detectFaceAndEyes]: one processed frame *)

(** the successive readings of [Date.now()] during one frame *)
Record Clock : Type := {
  t_frame : Z;       (* const timestamp = Date.now() *)
  t_check : Z;       (* the cooldown test *)
  t_trigger : Z;     (* inside triggerAlert *)
  t_set : Z;         (* setLastAlertTime(Date.now()) *)
  t_analytics : Z    (* inside updateAnalytics *)
}.

Definition leftEyeIndices : list nat :=
  [33; 7; 163; 144; 145; 153; 154; 155; 133; 173; 157; 158; 159; 160; 161; 246]%nat.
Definition rightEyeIndices : list nat :=
  [362; 382; 381; 380; 374; 373; 390; 249; 263; 466; 388; 387; 386; 385; 384; 398]%nat.
Definition mouthIndices : list nat :=
  [61; 84; 17; 314; 405; 320; 307; 375; 321; 308; 324; 318]%nat.

(** [indices.map((i) => keypoints[i]).filter(Boolean)] *)
Definition pick (indices : list nat) (keypoints : list (Point float))
    : list (Point float) :=
  flat_map (fun i => match nth_error keypoints i with
                     | Some p => [p]
                     | None => []
                     end) indices.

(** the measurements of a face: [(avgEAR, mouthAR)] *)
Definition measure (keypoints : list (Point float)) : result (float * float) :=
  leftEAR <- calculateEyeAspectRatio (pick leftEyeIndices keypoints) ;;
  rightEAR <- calculateEyeAspectRatio (pick rightEyeIndices keypoints) ;;
  mouthAR <- calculateMouthAspectRatio (pick mouthIndices keypoints) ;;
  Ok (PrimFloat.div (PrimFloat.add leftEAR rightEAR) 2, mouthAR).

(** What the [detectFaceAndEyes] callback captured of the state when it
    was created: [config], [alertState.level] and [lastAlertTime] are in
    its dependency list, and the [updateAnalytics] it calls captured
    [stats.blinkRate].  The loop re-queues the callback that is running
    ([requestAnimationFrame(detectFaceAndEyes)] inside the callback), so
    these values stay those of the start of the loop while the state
    itself changes. *)
Record Closure : Type := {
  cap_config : DrowsinessConfig;
  cap_level : Level;
  cap_lastAlertTime : Z;
  cap_blinkRate : Z
}.

(** the closure of a callback created when the state is [e] *)
Definition capture (e : Engine) : Closure := {|
  cap_config := config e;
  cap_level := level (alertState e);
  cap_lastAlertTime := lastAlertTime e;
  cap_blinkRate := stats_blinkRate (stats e)
|}.

(** the alert decision taken on the analysis of a frame, by a callback
    with closure [cap] *)
Definition raiseAlertsIn (cap : Closure) (a : Analysis) (c : Clock) (e : Engine)
    : Engine :=
  if (isSustainedClosure a && negb (Level_eqb (cap_level cap) critical))%bool then
    triggerAlert (alertLevel a) (alertMessage a) (t_trigger c) e
  else if (isDrowsy a
           && (alertCooldown (cap_config cap) <? t_check c - cap_lastAlertTime cap)%Z)%bool
  then
    set_lastAlertTime (triggerAlert (alertLevel a) (alertMessage a) (t_trigger c) e)
                      (t_set c)
  else e.

(** the same decision by a callback created in the state it runs on *)
Definition raiseAlerts (a : Analysis) (c : Clock) (e : Engine) : Engine :=
  raiseAlertsIn (capture e) a c e.

Definition reportedLevel (a : Analysis) : option Level :=
  if Level_eqb (alertLevel a) low then None else Some (alertLevel a).

(** The branch taken when a face was found and measured, in a callback
    with closure [cap].  The [setStats] updater runs after the frame's own
    code, so its test on [lastBlinkRef.current] sees the value the frame
    has just stored. *)
Definition faceFrameIn (cap : Closure) (avg : float) (c : Clock) (e : Engine)
    : Engine :=
  let now := t_frame c in
  let result := analyzeDrowsinessPattern (cap_config cap) (history e) avg now in
  let history' := fst result in
  let analysis := snd result in
  let e1 := raiseAlertsIn cap analysis c e in
  let isNewBlink :=
    (PrimFloat.ltb avg (blinkThreshold (cap_config cap))
     && (200 <? now - lastBlink e)%Z)%bool in
  let lastBlink' := if isNewBlink then now else lastBlink e in
  let prev := stats e in
  {| config := config e;
     history := history';
     lastBlink := lastBlink';
     consecutiveDrowsyFrames :=
       if isDrowsy analysis then (consecutiveDrowsyFrames e + 1)%Z else 0%Z;
     detectionStatus := if isDrowsy analysis then drowsy else active;
     stats := {|
       eyeAspectRatio := avg;
       blinkCount :=
         (blinkCount prev
          + if (PrimFloat.ltb avg (blinkThreshold (cap_config cap))
                && (200 <? now - lastBlink')%Z)%bool then 1 else 0)%Z;
       alertCount :=
         (alertCount prev + if Level_eqb (alertLevel analysis) low then 0 else 1)%Z;
       faceDetected := true;
       stats_blinkRate := blinkRate analysis;
       stats_avgEAR := stats_avgEAR prev;
       stats_drowsinessScore := drowsinessScore analysis;
       stats_eyeClosureDuration := eyeClosureDuration analysis;
       currentEAR := avg |};
     alertState := alertState e1;
     lastAlertTime := lastAlertTime e1;
     alertTimeout := alertTimeout e1;
     analytics :=
       updateAnalytics (cap_blinkRate cap) avg (drowsinessScore analysis)
         (reportedLevel analysis) (t_analytics c) (analytics e);
     emitted := emitted e1 |}.

(** the same branch in a callback created in the state it runs on *)
Definition faceFrame (avg : float) (c : Clock) (e : Engine) : Engine :=
  faceFrameIn (capture e) avg c e.

(** the branch taken when [predictions] is empty *)
Definition noFaceFrame (e : Engine) : Engine :=
  let prev := stats e in
  {| config := config e;
     history := history e;
     lastBlink := lastBlink e;
     consecutiveDrowsyFrames := consecutiveDrowsyFrames e;
     detectionStatus := active;
     stats := {|
       eyeAspectRatio := 0;
       blinkCount := blinkCount prev;
       alertCount := alertCount prev;
       faceDetected := false;
       stats_blinkRate := 0;
       stats_avgEAR := stats_avgEAR prev;
       stats_drowsinessScore := 0;
       stats_eyeClosureDuration := 0;
       currentEAR := 0 |};
     alertState := alertState e;
     lastAlertTime := lastAlertTime e;
     alertTimeout := alertTimeout e;
     analytics := analytics e;
     emitted := emitted e |}.

(** The body of [detectFaceAndEyes] after its early returns, run by a
    callback with closure [cap]; [predictions] is the list of detected
    faces, each given by its keypoints.  An exception thrown while
    measuring is caught by the [try] and leaves the state as it was. *)
Definition detectFaceAndEyesIn (cap : Closure)
    (predictions : list (list (Point float))) (c : Clock) (e : Engine) : Engine :=
  match predictions with
  | face :: _ =>
      match measure face with
      | Ok (avg, _) => faceFrameIn cap avg c e
      | TypeError => e
      end
  | [] => noFaceFrame e
  end.

(** one call of a callback created in the state it runs on: the first
    frame of a loop, or any frame of a loop since whose start the captured
    values have not changed *)
Definition detectFaceAndEyes (predictions : list (list (Point float)))
    (c : Clock) (e : Engine) : Engine :=
  detectFaceAndEyesIn (capture e) predictions c e.

(** the state of a freshly mounted component *)
Definition initial_engine : Engine := {|
  config := default_config;
  history := initial_history;
  lastBlink := 0;
  consecutiveDrowsyFrames := 0;
  detectionStatus := idle;
  stats := {| eyeAspectRatio := 0; blinkCount := 0; alertCount := 0;
              faceDetected := false; stats_blinkRate := 0; stats_avgEAR := 0;
              stats_drowsinessScore := 0; stats_eyeClosureDuration := 0;
              currentEAR := 0 |};
  alertState := {| isActive := false; level := low; message := ""; timestamp := 0 |};
  lastAlertTime := 0;
  alertTimeout := None;
  analytics := {| currentSession := None; sessions := []; realTimeData := [];
                  maxDataPoints := 300 |};
  emitted := []
|}.

(** ** Concrete inputs used in the evaluations below *)

Definition fpt (a b : float) : Point float := mkPoint a b.

(** a face of 468 keypoints, all at the origin except the outer corner of
    each eye and of the mouth at [(1,0)] and the lower lid point of each
    eye at [(0, lid)]: both eyes have EAR [lid / 2] *)
Definition faceWithLid (lid : float) : list (Point float) :=
  map (fun i =>
         if ((i =? 144) || (i =? 380) || (i =? 405))%nat%bool then fpt 1 0
         else if ((i =? 153) || (i =? 373))%nat%bool then fpt 0 lid
         else fpt 0 0)
      (seq 0 468).

Definition closedFace : list (Point float) := faceWithLid 0.

(** one clock reading for the whole frame *)
Definition at_time (t : Z) : Clock :=
  {| t_frame := t; t_check := t; t_trigger := t; t_set := t; t_analytics := t |}.

(** A run of the detection loop started in state [e], the state in which
    [startCamera] is called (it changes none of the captured values):
    every frame is processed by the callback created then, with the
    values it captured, while the state and the refs evolve from frame to
    frame. *)
Definition frames (l : list (list (list (Point float)) * Z)) (e : Engine) : Engine :=
  fold_left
    (fun e' '(predictions, t) =>
       detectFaceAndEyesIn (capture e) predictions (at_time t) e')
    l e.

(** a history with empty buffers and capacity [m] *)
Definition empty_history (m : Z) : DetectionHistory := {|
  earValues := [];
  blinkStates := [];
  timestamps := [];
  maxHistoryLength := m;
  eyeClosureStartTime := None;
  lastEyeClosureDuration := 0
|}.

(** the history after analysing the samples [(ear, timestamp)] in order *)
Definition record_all (cfg : DrowsinessConfig) (samples : list (float * Z))
    (h : DetectionHistory) : DetectionHistory :=
  fold_left (fun h s => fst (analyzeDrowsinessPattern cfg h (fst s) (snd s)))
            samples h.

(** the last [n] elements of a list, in order *)
Definition lastn {T : Type} (n : nat) (l : list T) : list T :=
  skipn (List.length l - n) l.

(** the buffer maintenance of [analyzeDrowsinessPattern] on one array *)
Definition trim {T : Type} (m : Z) (l : list T) : list T :=
  if (m <? Z.of_nat (List.length l))%Z then shift l else l.

(** a value that is [+0] or NaN: what a difference [v - v] can be *)
Definition zero_or_nan (v : float) : Prop := v = 0%float \/ v = nan.

(** the samples of the failing scenario: one frame measured as NaN (all
    landmarks of an eye coincide), then closed eyes every 100 ms *)
Definition T0 : Z := 1700000000000.

Definition event (a : Analysis) (c : Clock) : AlertEvent :=
  {| ev_level := alertLevel a; ev_message := alertMessage a;
     ev_timestamp := t_trigger c |}.

Definition sixMouthPoints : list (Point float) :=
  [fpt 0 0; fpt 1 1; fpt 2 2; fpt 3 1; fpt 4 0; fpt 2 (-1)].

Definition degenerateEye : list (Point float) :=
  [fpt 3 4; fpt 3 5; fpt 3 4; fpt 3 4; fpt 3 4; fpt 3 4].

Definition degenerateMouth : list (Point float) :=
  [fpt 3 4; fpt 3 4; fpt 3 4; fpt 3 4; fpt 3 4; fpt 3 4; fpt 3 4; fpt 3 4].

Definition eyeB : list (Point float) :=
  [fpt 0 0; fpt 0 0; fpt 0 0; fpt 1 1; fpt 0 0; fpt 1 2].

(** *** Scaling by a power of two

    [2^j] as a binary64 number: mantissa [2^52], exponent [j - 52]. *)
Definition pow2 (j : Z) : float :=
  SF2Prim (S754_finite false 4503599627370496 (-52 + j)).

(** a binary64 value with [j] added to its exponent *)
Definition shiftE (j : Z) (f : spec_float) : spec_float :=
  match f with
  | S754_finite s m e => S754_finite s m (e + j)
  | _ => f
  end.

(** [b] is [a] times [2^i], exactly *)
Definition shifted (i : Z) (a b : float) : Prop :=
  Prim2SF b = shiftE i (Prim2SF a).

(** a rounded result that stays finite when [j] is added to its exponent *)
Definition fits (j : Z) (f : spec_float) : Prop :=
  match f with
  | S754_zero _ => True
  | S754_finite _ _ e => (e + j <= 971)%Z
  | _ => False
  end.

(** zero, or finite with the exponent of its integer mantissa within
    [-400, 400]: a magnitude from [2^-348] to just below [2^453] *)
Definition roomySF (f : spec_float) : Prop :=
  match f with
  | S754_zero _ => True
  | S754_finite _ _ e => (-400 <= e <= 400)%Z
  | _ => False
  end.

Definition roomy (v : float) : bool :=
  match Prim2SF v with
  | S754_zero _ => true
  | S754_finite _ _ e => ((-400 <=? e) && (e <=? 400))%Z
  | _ => false
  end.

(** the distance of two landmarks, as the aspect-ratio functions compute it *)
Definition distance (p q : Point float) : float :=
  PrimFloat.sqrt (PrimFloat.add (Math_pow2 (PrimFloat.sub (x p) (x q)))
                                (Math_pow2 (PrimFloat.sub (y p) (y q)))).

(** every value that computing that distance goes through *)
Definition distanceSteps (p q : Point float) : list float :=
  let dx := PrimFloat.sub (x p) (x q) in
  let dy := PrimFloat.sub (y p) (y q) in
  [x p; x q; y p; y q; dx; dy; Math_pow2 dx; Math_pow2 dy;
   PrimFloat.add (Math_pow2 dx) (Math_pow2 dy); distance p q].

(** every value that [calculateEyeAspectRatio] goes through before its
    final division *)
Definition earSteps (eyePoints : list (Point float)) : list float :=
  match eyePoints with
  | p0 :: p1 :: p2 :: p3 :: p4 :: p5 :: _ =>
      distanceSteps p1 p5 ++ distanceSteps p2 p4 ++ distanceSteps p0 p3
      ++ [PrimFloat.add (distance p1 p5) (distance p2 p4);
          PrimFloat.mul 2 (distance p0 p3)]
  | _ => []
  end.

(** a point with both coordinates multiplied by [2^j] *)
Definition scaled (j : Z) (p : Point float) : Point float :=
  mkPoint (PrimFloat.mul (pow2 j) (x p)) (PrimFloat.mul (pow2 j) (y p)).

Definition threeSamples : list (float * Z) :=
  [(0.3%float, 1000%Z); (0.1%float, 1100%Z); (0.2%float, 1200%Z)].

Definition collapsedFace : list (Point float) :=
  map (fun _ => fpt 0 0) (seq 0 468).

Definition nanThenClosed : list (float * Z) :=
  (nan, T0) :: map (fun i => (0.05%float, (T0 + 100 * Z.of_nat i)%Z)) (seq 1 30).

(** [n] frames of a face with closed eyes, [step] ms apart, from [T0] *)
Definition closedRun (n : nat) (step : Z) : list (list (list (Point float)) * Z) :=
  map (fun i => ([closedFace], (T0 + step * Z.of_nat i)%Z)) (seq 0 n).

(** a loop started on the fresh component processes eight closed frames
    100 ms apart: the eighth, at [T0 + 700], makes [isDrowsy] true with a
    score above 80 and raises a critical alert, which sets
    [lastAlertTime]; the user then dismisses it *)
Definition afterDismissedCritical : Engine :=
  dismissAlert (frames (closedRun 8 100) initial_engine).

(** a closed frame, then two frames without a face *)
Definition afterNoFaceGap : Engine :=
  frames [([closedFace], T0); ([], (T0 + 100)%Z); ([], (T0 + 2500)%Z)] initial_engine.

Definition openAnalytics : AnalyticsData :=
  startSession T0 T0 (analytics initial_engine).

(** ** Further operations of the page *)

(** [formatDuration(ms)], for an integer number of milliseconds *)
Definition formatDuration (ms : Z) : string :=
  let seconds := (ms / 1000)%Z in
  let minutes := (seconds / 60)%Z in
  let hours := (minutes / 60)%Z in
  if (0 <? hours)%Z then
    (string_of_Z hours ++ "h " ++ string_of_Z (Z.rem minutes 60) ++ "m "
       ++ string_of_Z (Z.rem seconds 60) ++ "s")%string
  else if (0 <? minutes)%Z then
    (string_of_Z minutes ++ "m " ++ string_of_Z (Z.rem seconds 60) ++ "s")%string
  else (string_of_Z seconds ++ "s")%string.

(** [obj[key] || 0] on an [alertsByLevel] object *)
Fixpoint countOf (key : string) (obj : list (string * Z)) : Z :=
  match obj with
  | [] => 0%Z
  | (k, v) :: rest => if String.eqb k key then v else countOf key rest
  end.

Definition set_config (e : Engine) (cfg : DrowsinessConfig) : Engine :=
  {| config := cfg; history := history e; lastBlink := lastBlink e;
     consecutiveDrowsyFrames := consecutiveDrowsyFrames e;
     detectionStatus := detectionStatus e; stats := stats e;
     alertState := alertState e; lastAlertTime := lastAlertTime e;
     alertTimeout := alertTimeout e; analytics := analytics e;
     emitted := emitted e |}.

(** [updateEARThreshold(value)] *)
Definition updateEARThreshold (value : float) (e : Engine) : Engine :=
  set_config e
    {| earThreshold := value;
       consecutiveFrames := consecutiveFrames (config e);
       blinkThreshold := blinkThreshold (config e);
       yawnThreshold := yawnThreshold (config e);
       alertCooldown := alertCooldown (config e) |}.

(** [updateSensitivity(value)]: [value] is the integer read off the slider,
    so [Math.round(value * 2)] is [2 * value] *)
Definition updateSensitivity (value : Z) (e : Engine) : Engine :=
  set_config e
    {| earThreshold := earThreshold (config e);
       consecutiveFrames := (value * 2)%Z;
       blinkThreshold := blinkThreshold (config e);
       yawnThreshold := yawnThreshold (config e);
       alertCooldown := alertCooldown (config e) |}.

(** [resetSettings()] *)
Definition resetSettings (e : Engine) : Engine :=
  let prev := stats e in
  {| config := default_config;
     history := initial_history;
     lastBlink := lastBlink e;
     consecutiveDrowsyFrames := consecutiveDrowsyFrames e;
     detectionStatus := detectionStatus e;
     stats := {|
       eyeAspectRatio := eyeAspectRatio prev;
       blinkCount := 0;
       alertCount := 0;
       faceDetected := faceDetected prev;
       stats_blinkRate := 0;
       stats_avgEAR := 0;
       stats_drowsinessScore := 0;
       stats_eyeClosureDuration := 0;
       currentEAR := 0 |};
     alertState := alertState e;
     lastAlertTime := lastAlertTime e;
     alertTimeout := alertTimeout e;
     analytics := analytics e;
     emitted := emitted e |}.

(** [testAlert(level)] *)
Definition testAlert (lvl : Level) (now : Z) (e : Engine) : Engine :=
  triggerAlert lvl
    (match lvl with
     | low => "Test: Low level drowsiness alert"
     | medium => "Test: Medium level drowsiness alert"
     | high => "Test: High level drowsiness alert"
     | critical => "Test: Critical drowsiness alert"
     end)%string now e.

(** the session part of [stopCamera] and of [startCamera] *)
Definition stopCamera (t_end t_dur : Z) (e : Engine) : Engine :=
  {| config := config e; history := history e; lastBlink := lastBlink e;
     consecutiveDrowsyFrames := consecutiveDrowsyFrames e;
     detectionStatus := idle; stats := stats e;
     alertState := alertState e; lastAlertTime := lastAlertTime e;
     alertTimeout := alertTimeout e;
     analytics := endSession (stats e) t_end t_dur (analytics e);
     emitted := emitted e |}.

(** a spec-level float that is NaN or not below zero *)
Definition SFnonneg (f : spec_float) : Prop :=
  match f with
  | S754_nan | S754_zero _ => True
  | S754_infinity s | S754_finite s _ _ => s = false
  end.

(** the number of retained EAR values below the threshold among those the
    drowsy check looks at *)
Definition recentLowEARCount (cfg : DrowsinessConfig) (ears : list float) : nat :=
  List.length (filter (fun ear => PrimFloat.ltb ear (earThreshold cfg))
                      (slice (- consecutiveFrames cfg) ears)).

Definition startCamera (t_id t_start : Z) (e : Engine) : Engine :=
  {| config := config e; history := history e; lastBlink := lastBlink e;
     consecutiveDrowsyFrames := consecutiveDrowsyFrames e;
     detectionStatus := active; stats := stats e;
     alertState := alertState e; lastAlertTime := lastAlertTime e;
     alertTimeout := alertTimeout e;
     analytics := startSession t_id t_start (analytics e);
     emitted := emitted e |}.

(** after that dismissal the camera is stopped and started again: the
    new loop's callback is created with the state as it is now, level
    critical and [lastAlertTime = T0 + 700], while the history ref still
    holds the closure begun at [T0] *)
Definition restartedAfterDismissedCritical : Engine :=
  startCamera (T0 + 900) (T0 + 900)
    (stopCamera (T0 + 850) (T0 + 850) afterDismissedCritical).

(** what can happen to the component: a frame processed by the running
    callback, whatever its closure holds, a click, the timer, a settings
    change *)
Inductive Action : Type :=
| AFrame (cap : Closure) (predictions : list (list (Point float))) (c : Clock)
| ADismiss
| ATimer
| ATest (lvl : Level) (now : Z)
| AStartCamera (t_id t_start : Z)
| AStopCamera (t_end t_dur : Z)
| AThreshold (value : float)
| ASensitivity (value : Z)
| AReset.

Definition perform (e : Engine) (a : Action) : Engine :=
  match a with
  | AFrame cap predictions c => detectFaceAndEyesIn cap predictions c e
  | ADismiss => dismissAlert e
  | ATimer => autoDismiss e
  | ATest lvl now => testAlert lvl now e
  | AStartCamera t_id t_start => startCamera t_id t_start e
  | AStopCamera t_end t_dur => stopCamera t_end t_dur e
  | AThreshold value => updateEARThreshold value e
  | ASensitivity value => updateSensitivity value e
  | AReset => resetSettings e
  end.

(** the state reached from the freshly mounted component *)
Definition reach (acts : list Action) : Engine :=
  fold_left perform acts initial_engine.

(** the three arrays of the history run in parallel within the capacity *)
Definition history_ok (h : DetectionHistory) : Prop :=
  maxHistoryLength h = 100%Z /\
  List.length (timestamps h) = List.length (earValues h) /\
  List.length (blinkStates h) = List.length (earValues h) /\
  (List.length (earValues h) <= 100)%nat.

(** the analytics stay within their caps *)
Definition analytics_ok (a : AnalyticsData) : Prop :=
  maxDataPoints a = 300%Z /\
  (List.length (sessions a) <= 50)%nat /\
  (List.length (realTimeData a) <= 300)%nat /\
  match currentSession a with
  | Some cs =>
      (List.length (earHistory cs) <= 1000)%nat /\
      List.length (drowsinessHistory cs) = List.length (earHistory cs) /\
      endTime cs = None
  | None => True
  end /\
  Forall (fun s => endTime s <> None) (sessions a).

(** the alert state and the trace of raised alerts *)
Definition alerts_ok (e : Engine) : Prop :=
  (isActive (alertState e) = true -> alertTimeout e <> None) /\
  Forall (fun ev => ev_message ev <> ""%string) (emitted e).

(** every sample of the list is measured below the threshold *)
Definition allClosed (cfg : DrowsinessConfig) (samples : list (float * Z)) : Prop :=
  Forall (fun s => PrimFloat.ltb (fst s) (earThreshold cfg) = true) samples.

(** the history during the first 500 ms of a closure begun at [t0] on an
    empty history: [k] samples, all flagged as blinks and all later than
    [bound] *)
Definition blinking (t0 bound : Z) (k : nat) (h : DetectionHistory) : Prop :=
  maxHistoryLength h = 100%Z /\
  blinkStates h = repeat true k /\
  List.length (timestamps h) = k /\
  List.length (earValues h) = k /\
  eyeClosureStartTime h = Some t0 /\
  Forall (fun ts => (bound < ts)%Z) (timestamps h).

(** the [low] entry of every session's [alertsByLevel] is 0 *)
Definition low_uncounted (a : AnalyticsData) : Prop :=
  match currentSession a with
  | Some cs => countOf "low" (alertsByLevel cs) = 0%Z
  | None => True
  end /\
  Forall (fun s => countOf "low" (alertsByLevel s) = 0%Z) (sessions a).

(** * Properties *)

Lemma Ok_inj {A : Type} (a b : A) : Ok a = Ok b -> a = b.
Proof.
  intros H.
  exact (f_equal (fun r => match r with Ok v => v | TypeError => a end) H).
Qed.

(** ** Binary64 facts used below *)

Section FloatFacts.

Open Scope float_scope.

Lemma sub_self (v : float) : zero_or_nan (v - v).
Proof.
  unfold zero_or_nan.
  rewrite <- (SF2Prim_Prim2SF (v - v)), sub_spec.
  destruct (Prim2SF v) as [s | s | | s m e].
  - left; destruct s; reflexivity.
  - right; destruct s; reflexivity.
  - right; reflexivity.
  - left. unfold SF64sub, SFsub. rewrite Z.sub_diag. reflexivity.
Qed.

Lemma zero_or_nan_sq (v : float) : zero_or_nan v -> zero_or_nan (v * v).
Proof. intros [-> | ->]; [left | right]; reflexivity. Qed.

Lemma zero_or_nan_add (u v : float) :
  zero_or_nan u -> zero_or_nan v -> zero_or_nan (u + v).
Proof. intros [-> | ->] [-> | ->]; (left; reflexivity) || (right; reflexivity). Qed.

Lemma zero_or_nan_sqrt (v : float) : zero_or_nan v -> zero_or_nan (PrimFloat.sqrt v).
Proof. intros [-> | ->]; [left | right]; reflexivity. Qed.

Lemma zero_or_nan_double (v : float) : zero_or_nan v -> zero_or_nan (2 * v).
Proof. intros [-> | ->]; [left | right]; reflexivity. Qed.

Lemma is_nan_of_spec (v : float) : Prim2SF v = S754_nan -> is_nan v = true.
Proof.
  intros E. unfold is_nan. rewrite eqb_spec, E. reflexivity.
Qed.

Lemma is_infinity_of_spec (v : float) (s : bool) :
  Prim2SF v = S754_infinity s -> is_infinity v = true.
Proof.
  intros E. unfold is_infinity. rewrite eqb_spec, abs_spec, E. reflexivity.
Qed.

(** dividing by [+0] or by NaN never gives a finite number *)
Lemma div_zero_or_nan (u v : float) :
  zero_or_nan v -> is_nan (u / v) = true \/ is_infinity (u / v) = true.
Proof.
  intros [-> | ->].
  - destruct (Prim2SF u) as [s | s | | s m e] eqn:E.
    + left. apply is_nan_of_spec. rewrite div_spec, E. reflexivity.
    + right. apply is_infinity_of_spec with (s := xorb s false).
      rewrite div_spec, E. reflexivity.
    + left. apply is_nan_of_spec. rewrite div_spec, E. reflexivity.
    + right. apply is_infinity_of_spec with (s := xorb s false).
      rewrite div_spec, E. reflexivity.
  - left. apply is_nan_of_spec. rewrite div_spec.
    destruct (Prim2SF u); reflexivity.
Qed.

Lemma is_nan_not_zero (v : float) : is_nan v = true -> v <> 0.
Proof. intros H ->. discriminate H. Qed.

Lemma is_infinity_not_zero (v : float) : is_infinity v = true -> v <> 0.
Proof. intros H ->. discriminate H. Qed.

(** the squared distance of a point to itself *)
Lemma self_distance (a b : float) :
  zero_or_nan (PrimFloat.sqrt ((a - a) * (a - a) + (b - b) * (b - b))).
Proof.
  apply zero_or_nan_sqrt, zero_or_nan_add; apply zero_or_nan_sq, sub_self.
Qed.

End FloatFacts.

(** ** Geometry *)

Section GeometryFacts.

Lemma calculateEyeAspectRatio_short (eyePoints : list (Point float)) :
  (List.length eyePoints < 6)%nat -> calculateEyeAspectRatio eyePoints = Ok 0%float.
Proof.
  intros H. unfold calculateEyeAspectRatio.
  apply Nat.ltb_lt in H. rewrite H. reflexivity.
Qed.

Lemma calculateMouthAspectRatio_short (mouthPoints : list (Point float)) :
  (List.length mouthPoints < 6)%nat -> calculateMouthAspectRatio mouthPoints = Ok 0%float.
Proof.
  intros H. unfold calculateMouthAspectRatio.
  apply Nat.ltb_lt in H. rewrite H. reflexivity.
Qed.

(** with 6 or 7 mouth points the guard lets the call through and the
    read of [mouthPoints[6]] or [mouthPoints[7]] throws *)
Lemma calculateMouthAspectRatio_throws (mouthPoints : list (Point float)) :
  List.length mouthPoints = 6%nat \/ List.length mouthPoints = 7%nat ->
  calculateMouthAspectRatio mouthPoints = TypeError.
Proof.
  intros H.
  destruct mouthPoints as [|p0 [|p1 [|p2 [|p3 [|p4 [|p5 [|p6 [|p7 rest]]]]]]]];
    simpl in H; try (destruct H; discriminate); try reflexivity.
Qed.

(** an eye set never makes [calculateEyeAspectRatio] throw *)
Lemma calculateEyeAspectRatio_total (eyePoints : list (Point float)) :
  exists r, calculateEyeAspectRatio eyePoints = Ok r.
Proof.
  destruct eyePoints as [|p0 [|p1 [|p2 [|p3 [|p4 [|p5 rest]]]]]];
    eexists; reflexivity.
Qed.

End GeometryFacts.

(** C3: the eye guard is right (fewer than 6 points give 0), but the mouth
    guard tests [length < 6] where the body reads indices 6 and 7: on a
    mouth sequence of exactly 6 points the call throws instead of
    returning 0. *)
Theorem C3_mouth_six_points_throws :
  List.length sixMouthPoints = 6%nat /\
  calculateMouthAspectRatio sixMouthPoints = TypeError /\
  calculateMouthAspectRatio sixMouthPoints <> Ok 0%float /\
  calculateEyeAspectRatio (firstn 5 sixMouthPoints) = Ok 0%float /\
  calculateMouthAspectRatio (firstn 5 sixMouthPoints) = Ok 0%float.
Proof.
  repeat split; try reflexivity. discriminate.
Qed.

(** C4, as stated, fails: an eye set with [p0 = p3] and an open lid yields
    Infinity, and a mouth set whose eight points coincide yields NaN. *)
Lemma C4_degenerate_not_zero :
  nth_error degenerateEye 0 = nth_error degenerateEye 3 /\
  calculateEyeAspectRatio degenerateEye = Ok infinity /\
  calculateEyeAspectRatio degenerateEye <> Ok 0%float /\
  nth_error degenerateMouth 0 = nth_error degenerateMouth 4 /\
  calculateMouthAspectRatio degenerateMouth = Ok nan /\
  calculateMouthAspectRatio degenerateMouth <> Ok 0%float.
Proof.
  repeat split; try reflexivity.
  - intros H. apply Ok_inj in H. now apply is_infinity_not_zero in H.
  - intros H. apply Ok_inj in H. now apply is_nan_not_zero in H.
Qed.

(** C4, amended: when the two horizontal reference points coincide the
    division is carried out unguarded, and the result is Infinity or NaN,
    never a finite number and in particular never 0. *)
Theorem C4_degenerate_is_infinite_or_nan
    (eyePoints mouthPoints : list (Point float)) (e0 m0 : Point float) :
  nth_error eyePoints 0 = Some e0 -> nth_error eyePoints 3 = Some e0 ->
  (6 <= List.length eyePoints)%nat ->
  nth_error mouthPoints 0 = Some m0 -> nth_error mouthPoints 4 = Some m0 ->
  (8 <= List.length mouthPoints)%nat ->
  (exists r, calculateEyeAspectRatio eyePoints = Ok r /\
             (is_nan r = true \/ is_infinity r = true) /\ r <> 0%float) /\
  (exists r, calculateMouthAspectRatio mouthPoints = Ok r /\
             (is_nan r = true \/ is_infinity r = true) /\ r <> 0%float).
Proof.
  intros E0 E3 Elen M0 M4 Mlen. split.
  - destruct eyePoints as [|q0 [|q1 [|q2 [|q3 [|q4 [|q5 rest]]]]]];
      simpl in Elen; try lia.
    simpl in E0, E3. apply (f_equal (fun o => match o with Some p => p | None => e0 end)) in E0, E3.
    subst q0 q3.
    eexists. split; [reflexivity|].
    assert (D := div_zero_or_nan
      (PrimFloat.add (PrimFloat.sqrt (PrimFloat.add (Math_pow2 (PrimFloat.sub (x q1) (x q5))) (Math_pow2 (PrimFloat.sub (y q1) (y q5)))))
             (PrimFloat.sqrt (PrimFloat.add (Math_pow2 (PrimFloat.sub (x q2) (x q4))) (Math_pow2 (PrimFloat.sub (y q2) (y q4))))))
      (zero_or_nan_double (self_distance (x e0) (y e0)))).
    split; [exact D|].
    destruct D as [D | D];
      [apply is_nan_not_zero in D | apply is_infinity_not_zero in D]; exact D.
  - destruct mouthPoints as [|q0 [|q1 [|q2 [|q3 [|q4 [|q5 [|q6 [|q7 rest]]]]]]]];
      simpl in Mlen; try lia.
    simpl in M0, M4. apply (f_equal (fun o => match o with Some p => p | None => m0 end)) in M0, M4.
    subst q0 q4.
    eexists. split; [reflexivity|].
    assert (D := div_zero_or_nan
      (PrimFloat.add (PrimFloat.sqrt (PrimFloat.add (Math_pow2 (PrimFloat.sub (x q2) (x q6))) (Math_pow2 (PrimFloat.sub (y q2) (y q6)))))
             (PrimFloat.sqrt (PrimFloat.add (Math_pow2 (PrimFloat.sub (x q3) (x q7))) (Math_pow2 (PrimFloat.sub (y q3) (y q7))))))
      (zero_or_nan_double (self_distance (x m0) (y m0)))).
    split; [exact D|].
    destruct D as [D | D];
      [apply is_nan_not_zero in D | apply is_infinity_not_zero in D]; exact D.
Qed.

Lemma C4_degenerate_witness :
  (exists r, calculateEyeAspectRatio degenerateEye = Ok r /\
             (is_nan r = true \/ is_infinity r = true) /\ r <> 0%float) /\
  (exists r, calculateMouthAspectRatio degenerateMouth = Ok r /\
             (is_nan r = true \/ is_infinity r = true) /\ r <> 0%float).
Proof.
  apply (@C4_degenerate_is_infinite_or_nan degenerateEye degenerateMouth
           (fpt 3 4) (fpt 3 4)); try reflexivity; simpl; lia.
Defined.

(** ** Scale invariance *)

(** C9, as stated, fails in binary64: scaling this eye set by 3 changes
    the last bits of the ratio (sqrt 5 / (2 sqrt 2) against
    sqrt 45 / (2 sqrt 18), each step rounded). *)
Lemma C9_scaling_changes_rounding :
  PrimFloat.ltb 0 3 = true /\
  List.length eyeB = 6%nat /\
  nth_error eyeB 0 <> nth_error eyeB 3 /\
  calculateEyeAspectRatio eyeB = Ok 0x1.94c583ada5b52p-1%float /\
  calculateEyeAspectRatio (scale 3%float eyeB) = Ok 0x1.94c583ada5b54p-1%float /\
  calculateEyeAspectRatio (scale 3%float eyeB) <> calculateEyeAspectRatio eyeB.
Proof.
  repeat split; try reflexivity.
  - intros H. apply (f_equal (fun o => match o with
                                       | Some p => PrimFloat.eqb (x p) 0
                                       | None => false
                                       end)) in H.
    discriminate H.
  - intros H. apply Ok_inj in H.
    apply (f_equal (fun v => PrimFloat.eqb v 0x1.94c583ada5b52p-1)) in H.
    discriminate H.
Qed.

(** The rounding of an operation depends on the mantissas and on the
    differences of the exponents only, as long as no result leaves the
    normal range: adding [j] to the exponents of the operands adds it (or
    twice, or half of it) to the exponent of the result. *)

Section ExponentShift.

Open Scope Z_scope.

Lemma fexp_unclamped (z : Z) : -1021 <= z -> fexp prec emax z = z - 53.
Proof. unfold fexp, emin, prec, emax. lia. Qed.

Lemma Zdigits2_nonneg (m : Z) : 0 <= Zdigits2 m.
Proof. destruct m; simpl; lia. Qed.

Lemma shr_fexp_shift (m e : Z) (l : location) (j : Z) :
  -1021 <= e -> -1021 <= e + j ->
  shr_fexp prec emax m (e + j) l
  = (fst (shr_fexp prec emax m e l), snd (shr_fexp prec emax m e l) + j)
  /\ e <= snd (shr_fexp prec emax m e l).
Proof.
  intros He Hj. unfold shr_fexp.
  pose proof (Zdigits2_nonneg m) as Hd.
  rewrite !fexp_unclamped by lia.
  replace (Zdigits2 m + (e + j) - 53 - (e + j)) with (Zdigits2 m - 53) by lia.
  replace (Zdigits2 m + e - 53 - e) with (Zdigits2 m - 53) by lia.
  unfold shr. destruct (Zdigits2 m - 53) as [|p|p]; cbn [fst snd]; split;
    try reflexivity; try lia.
  f_equal. lia.
Qed.

Lemma binary_round_aux_shift (s : bool) (m e : Z) (l : location) (j : Z) :
  -1021 <= e -> -1021 <= e + j ->
  fits j (binary_round_aux prec emax s m e l) ->
  binary_round_aux prec emax s m (e + j) l
  = shiftE j (binary_round_aux prec emax s m e l).
Proof.
  intros He Hj. unfold binary_round_aux.
  destruct (@shr_fexp_shift m e l j He Hj) as [E1 L1]. rewrite E1.
  destruct (shr_fexp prec emax m e l) as [mrs' e']. cbn [fst snd] in *.
  set (m1 := round_nearest_even (shr_m mrs') (loc_of_shr_record mrs')).
  destruct (@shr_fexp_shift m1 e' loc_Exact j) as [E2 L2]; [lia | lia |].
  rewrite E2.
  destruct (shr_fexp prec emax m1 e' loc_Exact) as [mrs'' e'']. cbn [fst snd] in *.
  destruct (shr_m mrs'') as [|p|p]; cbn [shiftE fits]; try reflexivity.
  destruct (e'' <=? emax - prec) eqn:B; cbn [shiftE fits]; intros F; [|contradiction].
  replace (e'' + j <=? emax - prec) with true; [reflexivity|].
  symmetry. apply Z.leb_le. unfold emax, prec. lia.
Qed.

Lemma shiftE_0 (f : spec_float) : shiftE 0 f = f.
Proof. destruct f; cbn [shiftE]; try reflexivity. rewrite Z.add_0_r. reflexivity. Qed.

Lemma SFmul_shift (i j : Z) (u v : spec_float) :
  roomySF u -> roomySF v -> roomySF (SF64mul u v) ->
  -100 <= i <= 100 -> -100 <= j <= 100 ->
  SF64mul (shiftE i u) (shiftE j v) = shiftE (i + j) (SF64mul u v).
Proof.
  unfold SF64mul.
  destruct u as [su | su | | su mu eu], v as [sv | sv | | sv mv ev];
    cbn [roomySF shiftE SFmul]; try contradiction; try reflexivity.
  intros Hu Hv Hr Hi Hj.
  replace (eu + i + (ev + j)) with (eu + ev + (i + j)) by lia.
  apply binary_round_aux_shift; try lia.
  destruct (binary_round_aux prec emax (xorb su sv) (Z.pos (mu * mv)) (eu + ev) loc_Exact);
    cbn [roomySF fits] in *; try exact I; try contradiction; lia.
Qed.

Lemma shl_align_shift (m : positive) (e e' j : Z) :
  shl_align m (e + j) (e' + j) = (fst (shl_align m e e'), snd (shl_align m e e') + j).
Proof.
  unfold shl_align. replace (e' + j - (e + j)) with (e' - e) by lia.
  destruct (e' - e); reflexivity.
Qed.

Lemma shl_align_snd (m : positive) (e e' : Z) :
  Z.min e e' <= snd (shl_align m e e').
Proof.
  unfold shl_align. destruct (e' - e) eqn:E; cbn [snd]; lia.
Qed.

Lemma binary_round_shift (s : bool) (m : positive) (e j : Z) :
  -960 <= e -> -960 <= e + j ->
  fits j (binary_round prec emax s m e) ->
  binary_round prec emax s m (e + j) = shiftE j (binary_round prec emax s m e).
Proof.
  intros He Hj. unfold binary_round.
  rewrite !fexp_unclamped by lia.
  replace (Z.pos (digits2_pos m) + (e + j) - 53)
    with (Z.pos (digits2_pos m) + e - 53 + j) by lia.
  rewrite shl_align_shift.
  pose proof (shl_align_snd m e (Z.pos (digits2_pos m) + e - 53)) as L.
  destruct (shl_align m e (Z.pos (digits2_pos m) + e - 53)) as [mz ez].
  cbn [fst snd] in *.
  apply binary_round_aux_shift; lia.
Qed.

Lemma binary_normalize_shift (m e j : Z) :
  -960 <= e -> -960 <= e + j ->
  fits j (binary_normalize prec emax m e false) ->
  binary_normalize prec emax m (e + j) false
  = shiftE j (binary_normalize prec emax m e false).
Proof.
  intros He Hj. unfold binary_normalize.
  destruct m as [|p|p]; [reflexivity | |]; apply binary_round_shift; assumption.
Qed.

Lemma roomy_fits (j : Z) (f : spec_float) :
  roomySF f -> j <= 200 -> fits j f.
Proof. destruct f; cbn [roomySF fits]; auto; lia. Qed.

Lemma SFadd_shift (j : Z) (u v : spec_float) :
  roomySF u -> roomySF v -> roomySF (SF64add u v) ->
  -200 <= j <= 200 ->
  SF64add (shiftE j u) (shiftE j v) = shiftE j (SF64add u v).
Proof.
  unfold SF64add.
  destruct u as [su | su | | su mu eu], v as [sv | sv | | sv mv ev];
    cbn [roomySF shiftE SFadd]; try contradiction; try reflexivity.
  - intros _ _ _ _. destruct su, sv; reflexivity.
  - intros Hu Hv Hr Hj.
    replace (Z.min (eu + j) (ev + j)) with (Z.min eu ev + j) by lia.
    rewrite !shl_align_shift. cbn [fst].
    apply binary_normalize_shift; try lia.
    apply roomy_fits; [exact Hr | lia].
Qed.

Lemma SFsub_shift (j : Z) (u v : spec_float) :
  roomySF u -> roomySF v -> roomySF (SF64sub u v) ->
  -200 <= j <= 200 ->
  SF64sub (shiftE j u) (shiftE j v) = shiftE j (SF64sub u v).
Proof.
  unfold SF64sub.
  destruct u as [su | su | | su mu eu], v as [sv | sv | | sv mv ev];
    cbn [roomySF shiftE SFsub]; try contradiction; try reflexivity.
  - intros _ _ _ _. destruct su, sv; reflexivity.
  - intros Hu Hv Hr Hj.
    replace (Z.min (eu + j) (ev + j)) with (Z.min eu ev + j) by lia.
    rewrite !shl_align_shift. cbn [fst].
    apply binary_normalize_shift; try lia.
    apply roomy_fits; [exact Hr | lia].
Qed.

Lemma SFdiv_shift (j : Z) (u v : spec_float) :
  SF64div (shiftE j u) (shiftE j v) = SF64div u v.
Proof.
  unfold SF64div.
  destruct u as [su | su | | su mu eu], v as [sv | sv | | sv mv ev];
    cbn [shiftE SFdiv]; try reflexivity.
  unfold SFdiv_core_binary.
  replace (Zdigits2 (Z.pos mu) + (eu + j) - (Zdigits2 (Z.pos mv) + (ev + j)))
    with (Zdigits2 (Z.pos mu) + eu - (Zdigits2 (Z.pos mv) + ev)) by lia.
  replace (eu + j - (ev + j)) with (eu - ev) by lia.
  reflexivity.
Qed.

Lemma div2_shift (a j : Z) : Z.div2 (a + 2 * j) = Z.div2 a + j.
Proof.
  rewrite !Z.div2_div. rewrite (Z.mul_comm 2 j). apply Z.div_add. lia.
Qed.

Lemma div2_lower (a : Z) : -800 <= a -> -400 <= Z.div2 a.
Proof.
  intros H. rewrite Z.div2_div. apply Z.div_le_lower_bound; lia.
Qed.

Lemma SFsqrt_core_shift (m : positive) (e j : Z) :
  -400 <= e -> -100 <= j <= 100 ->
  SFsqrt_core_binary prec emax (Z.pos m) (e + 2 * j)
  = (let '(q, e', l) := SFsqrt_core_binary prec emax (Z.pos m) e in (q, e' + j, l))
  /\ -500 <= snd (fst (SFsqrt_core_binary prec emax (Z.pos m) e)).
Proof.
  intros He Hj. unfold SFsqrt_core_binary.
  set (d := Zdigits2 (Z.pos m)).
  assert (Hd : 0 < d) by (unfold d; simpl; lia).
  replace (d + (e + 2 * j) + 1) with (d + e + 1 + 2 * j) by lia.
  rewrite !div2_shift.
  pose proof (@div2_lower (d + e + 1) ltac:(lia)) as L1.
  pose proof (@div2_lower e ltac:(lia)) as L2.
  rewrite !fexp_unclamped by lia.
  replace (Z.min (Z.div2 (d + e + 1) + j - 53) (Z.div2 e + j))
    with (Z.min (Z.div2 (d + e + 1) - 53) (Z.div2 e) + j) by lia.
  set (e' := Z.min (Z.div2 (d + e + 1) - 53) (Z.div2 e)).
  replace (e + 2 * j - 2 * (e' + j)) with (e - 2 * e') by lia.
  destruct (Z.sqrtrem match e - 2 * e' with
                      | 0 => Z.pos m
                      | Z.pos _ => Z.shiftl (Z.pos m) (e - 2 * e')
                      | Z.neg _ => 0
                      end) as [q r].
  cbn [fst snd]. split; [reflexivity | unfold e'; lia].
Qed.

Lemma SFsqrt_shift (j : Z) (u : spec_float) :
  roomySF u -> roomySF (SF64sqrt u) ->
  -100 <= j <= 100 ->
  SF64sqrt (shiftE (j + j) u) = shiftE j (SF64sqrt u).
Proof.
  unfold SF64sqrt.
  destruct u as [su | su | | su mu eu]; cbn [roomySF shiftE SFsqrt];
    try contradiction; try reflexivity.
  destruct su; [reflexivity|].
  intros Hu Hr Hj.
  replace (eu + (j + j)) with (eu + 2 * j) by lia.
  destruct (@SFsqrt_core_shift mu eu j ltac:(lia) Hj) as [E L]. rewrite E.
  destruct (SFsqrt_core_binary prec emax (Z.pos mu) eu) as [[q e'] l].
  cbn [fst snd] in L.
  apply binary_round_aux_shift; try lia.
  apply roomy_fits; [exact Hr | lia].
Qed.

Lemma normal_digits (s : bool) (m : positive) (e : Z) :
  valid_binary (S754_finite s m e) = true -> -1021 <= e ->
  digits2_pos m = 53%positive /\ e <= 971.
Proof.
  cbn [valid_binary]. unfold bounded, canonical_mantissa. intros H He.
  apply andb_true_iff in H. destruct H as [C B].
  apply Z.eqb_eq in C. apply Z.leb_le in B.
  rewrite fexp_unclamped in C by lia.
  unfold emax, prec in B. split; [|lia].
  assert (Z.pos (digits2_pos m) = 53) by lia. congruence.
Qed.

Lemma SFmul_one (u : spec_float) :
  valid_binary u = true -> roomySF u ->
  SF64mul (S754_finite false 4503599627370496 (-52)) u = u.
Proof.
  unfold SF64mul.
  destruct u as [su | su | | su mu eu]; cbn [roomySF SFmul xorb];
    try contradiction; try reflexivity.
  intros V R. destruct (@normal_digits su mu eu V ltac:(lia)) as [D B].
  unfold binary_round_aux, shr_fexp.
  cbn [Pos.mul Zdigits2 digits2_pos]. rewrite D.
  cbn [Pos.succ].
  rewrite fexp_unclamped by lia.
  replace (105 + (-52 + eu) - 53 - (-52 + eu)) with 52 by lia.
  cbn [shr shr_record_of_loc iter_pos shr_1 orb shr_m loc_of_shr_record round_nearest_even].
  cbn [Zdigits2]. rewrite D.
  rewrite fexp_unclamped by lia.
  replace (53 + (-52 + eu + 52) - 53 - (-52 + eu + 52)) with 0 by lia.
  cbn [shr shr_m].
  replace (-52 + eu + 52) with eu by lia.
  replace (eu <=? emax - prec) with true; [reflexivity|].
  symmetry. apply Z.leb_le. unfold emax, prec. lia.
Qed.

End ExponentShift.

Section Pow2Scaling.

Variable j : Z.
Hypothesis Hj : (-100 <= j <= 100)%Z.

Lemma roomy_spec (v : float) : roomy v = true -> roomySF (Prim2SF v).
Proof.
  unfold roomy, roomySF. destruct (Prim2SF v); try discriminate; auto.
  intros H. apply andb_true_iff in H. destruct H as [A B].
  apply Z.leb_le in A. apply Z.leb_le in B. lia.
Qed.

Lemma Prim2SF_pow2 :
  Prim2SF (pow2 j) = shiftE j (S754_finite false 4503599627370496 (-52)).
Proof.
  unfold pow2. cbn [shiftE]. apply Prim2SF_SF2Prim.
  cbn [valid_binary]. unfold bounded, canonical_mantissa.
  change (digits2_pos 4503599627370496) with 53%positive.
  rewrite fexp_unclamped by lia.
  apply andb_true_iff. split; [apply Z.eqb_eq; lia|].
  apply Z.leb_le. unfold emax, prec. lia.
Qed.

(** multiplying by [2^j] is exact *)
Lemma shifted_scale (v : float) :
  roomy v = true -> shifted j v (PrimFloat.mul (pow2 j) v).
Proof.
  intros R. apply roomy_spec in R. unfold shifted.
  rewrite mul_spec, Prim2SF_pow2.
  rewrite <- (shiftE_0 (Prim2SF v)) at 1.
  pose proof (@SFmul_one (Prim2SF v) (Prim2SF_valid v) R) as One.
  rewrite SFmul_shift; try lia.
  - rewrite One, Z.add_0_r. reflexivity.
  - cbn [roomySF]. lia.
  - exact R.
  - rewrite One. exact R.
Qed.

Lemma shifted_sub (i : Z) (a1 a2 b1 b2 : float) :
  (-200 <= i <= 200)%Z ->
  roomy a1 = true -> roomy a2 = true -> roomy (PrimFloat.sub a1 a2) = true ->
  shifted i a1 b1 -> shifted i a2 b2 ->
  shifted i (PrimFloat.sub a1 a2) (PrimFloat.sub b1 b2).
Proof.
  unfold shifted. intros Hi R1 R2 R S1 S2.
  apply roomy_spec in R1, R2, R. rewrite sub_spec in R.
  rewrite !sub_spec, S1, S2. apply SFsub_shift; assumption.
Qed.

Lemma shifted_add (i : Z) (a1 a2 b1 b2 : float) :
  (-200 <= i <= 200)%Z ->
  roomy a1 = true -> roomy a2 = true -> roomy (PrimFloat.add a1 a2) = true ->
  shifted i a1 b1 -> shifted i a2 b2 ->
  shifted i (PrimFloat.add a1 a2) (PrimFloat.add b1 b2).
Proof.
  unfold shifted. intros Hi R1 R2 R S1 S2.
  apply roomy_spec in R1, R2, R. rewrite add_spec in R.
  rewrite !add_spec, S1, S2. apply SFadd_shift; assumption.
Qed.

Lemma shifted_mul (i1 i2 : Z) (a1 a2 b1 b2 : float) :
  (-100 <= i1 <= 100)%Z -> (-100 <= i2 <= 100)%Z ->
  roomy a1 = true -> roomy a2 = true -> roomy (PrimFloat.mul a1 a2) = true ->
  shifted i1 a1 b1 -> shifted i2 a2 b2 ->
  shifted (i1 + i2) (PrimFloat.mul a1 a2) (PrimFloat.mul b1 b2).
Proof.
  unfold shifted. intros H1 H2 R1 R2 R S1 S2.
  apply roomy_spec in R1, R2, R. rewrite mul_spec in R.
  rewrite !mul_spec, S1, S2. apply SFmul_shift; assumption.
Qed.

Lemma shifted_sqrt (a b : float) :
  roomy a = true -> roomy (PrimFloat.sqrt a) = true ->
  shifted (j + j) a b -> shifted j (PrimFloat.sqrt a) (PrimFloat.sqrt b).
Proof.
  unfold shifted. intros R1 R S.
  apply roomy_spec in R1, R. rewrite sqrt_spec in R.
  rewrite !sqrt_spec, S. apply SFsqrt_shift; assumption.
Qed.

(** a quotient does not see a common factor [2^i] at all *)
Lemma shifted_div (i : Z) (a1 a2 b1 b2 : float) :
  shifted i a1 b1 -> shifted i a2 b2 ->
  PrimFloat.div b1 b2 = PrimFloat.div a1 a2.
Proof.
  unfold shifted. intros S1 S2. apply Prim2SF_inj.
  rewrite !div_spec, S1, S2. apply SFdiv_shift.
Qed.

Lemma roomy_distance (p q : Point float) :
  forallb roomy (distanceSteps p q) = true -> roomy (distance p q) = true.
Proof.
  unfold distanceSteps. cbn [forallb]. rewrite !andb_true_iff. intros H. apply H.
Qed.

Lemma shifted_distance (p q : Point float) :
  forallb roomy (distanceSteps p q) = true ->
  shifted j (distance p q) (distance (scaled j p) (scaled j q)).
Proof.
  unfold distanceSteps. cbn [forallb]. rewrite !andb_true_iff.
  intros (Rxp & Rxq & Ryp & Ryq & Rdx & Rdy & Rsx & Rsy & Rs & Rd & _).
  unfold distance in *. unfold Math_pow2 in *. cbn [scaled x y].
  assert (Sx : shifted j (PrimFloat.sub (x p) (x q))
                 (PrimFloat.sub (PrimFloat.mul (pow2 j) (x p))
                                (PrimFloat.mul (pow2 j) (x q))))
    by (apply shifted_sub; try assumption; try lia; apply shifted_scale; assumption).
  assert (Sy : shifted j (PrimFloat.sub (y p) (y q))
                 (PrimFloat.sub (PrimFloat.mul (pow2 j) (y p))
                                (PrimFloat.mul (pow2 j) (y q))))
    by (apply shifted_sub; try assumption; try lia; apply shifted_scale; assumption).
  apply shifted_sqrt; try assumption.
  apply shifted_add; try assumption; try lia;
    apply shifted_mul; assumption.
Qed.

End Pow2Scaling.

(** C9, amended: in binary64 the eye aspect ratio is unchanged, bit for
    bit, by scaling every coordinate by a power of two [2^j] with
    [-100 <= j <= 100], provided that no value the unscaled computation
    goes through (the coordinates of the six points, their differences,
    the squares, the sums of squares, the three distances, [v1 + v2] and
    [2 h]) is infinite, NaN, or nonzero with a magnitude outside
    [2^-348, 2^453).  The points [p0] and [p3] may coincide. *)
Theorem C9_ear_pow2_scale_invariant (j : Z) (eyePoints : list (Point float)) :
  (-100 <= j <= 100)%Z ->
  forallb roomy (earSteps eyePoints) = true ->
  calculateEyeAspectRatio (scale (pow2 j) eyePoints)
  = calculateEyeAspectRatio eyePoints.
Proof.
  intros Hj.
  change (scale (pow2 j) eyePoints) with (map (scaled j) eyePoints).
  destruct eyePoints as [|p0 [|p1 [|p2 [|p3 [|p4 [|p5 rest]]]]]];
    try reflexivity.
  unfold earSteps. rewrite !forallb_app, !andb_true_iff.
  intros (D15 & D24 & D03 & T). cbn [forallb] in T. rewrite !andb_true_iff in T.
  destruct T as (Rn & Rd & _).
  pose proof (roomy_distance _ _ D15) as R15.
  pose proof (roomy_distance _ _ D24) as R24.
  pose proof (roomy_distance _ _ D03) as R03.
  apply (shifted_distance Hj) in D15, D24, D03.
  unfold calculateEyeAspectRatio.
  cbn [map List.length Nat.ltb Nat.leb at_ nth_error bind].
  fold (distance p1 p5) (distance p2 p4) (distance p0 p3).
  fold (distance (scaled j p1) (scaled j p5)) (distance (scaled j p2) (scaled j p4))
       (distance (scaled j p0) (scaled j p3)).
  f_equal. apply (@shifted_div j).
  - apply shifted_add; try assumption; lia.
  - change j with (0 + j)%Z at 1.
    apply shifted_mul; try assumption; try lia; reflexivity.
Qed.

Lemma C9_ear_pow2_scale_invariant_witness :
  pow2 3 = 8%float /\
  calculateEyeAspectRatio (scale (pow2 3) eyeB) = calculateEyeAspectRatio eyeB.
Proof.
  split; [reflexivity|].
  apply (@C9_ear_pow2_scale_invariant 3 eyeB); [lia | vm_compute; reflexivity].
Defined.

(** Outside that range the scaled computation overflows or underflows:
    scaled by [2^600] the squares are infinite, scaled by [2^-600] they
    are zero, and either way the ratio is NaN. *)
Lemma scaling_out_of_range_gives_nan :
  calculateEyeAspectRatio (scale (pow2 600) eyeB) = Ok nan /\
  calculateEyeAspectRatio (scale (pow2 (-600)) eyeB) = Ok nan /\
  calculateEyeAspectRatio (scale (pow2 1) eyeB) = calculateEyeAspectRatio eyeB.
Proof.
  repeat split; vm_compute; reflexivity.
Qed.

(** ** The history buffer *)

Section HistoryBuffer.

Variable cfg : DrowsinessConfig.

Lemma analyze_earValues h ear now :
  earValues (fst (analyzeDrowsinessPattern cfg h ear now))
  = trim (maxHistoryLength h) (push (earValues h) ear).
Proof. reflexivity. Qed.

Lemma analyze_timestamps h ear now :
  timestamps (fst (analyzeDrowsinessPattern cfg h ear now))
  = if (maxHistoryLength h <? Z.of_nat (List.length (push (earValues h) ear)))%Z
    then shift (push (timestamps h) now) else push (timestamps h) now.
Proof. reflexivity. Qed.

Lemma analyze_blinkStates h ear now :
  exists isBlink,
    blinkStates (fst (analyzeDrowsinessPattern cfg h ear now))
    = push (if (maxHistoryLength h <? Z.of_nat (List.length (push (earValues h) ear)))%Z
            then shift (blinkStates h) else blinkStates h) isBlink.
Proof. eexists. reflexivity. Qed.

Lemma analyze_maxHistoryLength h ear now :
  maxHistoryLength (fst (analyzeDrowsinessPattern cfg h ear now)) = maxHistoryLength h.
Proof. reflexivity. Qed.

Lemma record_all_maxHistoryLength samples h :
  maxHistoryLength (record_all cfg samples h) = maxHistoryLength h.
Proof.
  revert h. induction samples as [|s samples IH]; intros h; [reflexivity|].
  unfold record_all in *. simpl. rewrite IH. reflexivity.
Qed.

Lemma length_push {T : Type} (l : list T) (v : T) :
  List.length (push l v) = S (List.length l).
Proof. unfold push. rewrite length_app. simpl. lia. Qed.

Lemma length_shift {T : Type} (l : list T) :
  List.length (shift l) = pred (List.length l).
Proof. destruct l; reflexivity. Qed.

(** timestamps follow the ear values as long as both arrays have the
    same length *)
Lemma analyze_timestamps_trim h ear now :
  List.length (timestamps h) = List.length (earValues h) ->
  timestamps (fst (analyzeDrowsinessPattern cfg h ear now))
  = trim (maxHistoryLength h) (push (timestamps h) now).
Proof.
  intros E. rewrite analyze_timestamps. unfold trim.
  rewrite !length_push, E. reflexivity.
Qed.

Lemma trim_length {T : Type} (m : Z) (b : list T) (v : T) :
  (0 <= m)%Z -> (Z.of_nat (List.length b) <= m)%Z ->
  (Z.of_nat (List.length (trim m (push b v))) <= m)%Z.
Proof.
  intros Hm Hb. unfold trim.
  destruct (Z.ltb_spec m (Z.of_nat (List.length (push b v)))) as [H | H].
  - rewrite length_shift, length_push. simpl. lia.
  - exact H.
Qed.

Lemma trim_lastn {T : Type} (m : Z) (b rest : list T) (v : T) :
  (0 <= m)%Z -> (Z.of_nat (List.length b) <= m)%Z ->
  lastn (Z.to_nat m) (trim m (push b v) ++ rest)
  = lastn (Z.to_nat m) (b ++ v :: rest).
Proof.
  intros Hm Hb. unfold trim.
  destruct (Z.ltb_spec m (Z.of_nat (List.length (push b v)))) as [H | H].
  - rewrite length_push in H.
    assert (Hlen : List.length b = Z.to_nat m) by lia.
    unfold push, shift.
    replace (b ++ v :: rest) with ((b ++ [v]) ++ rest)
      by (rewrite <- app_assoc; reflexivity).
    destruct (b ++ [v]) as [|a l] eqn:E.
    + destruct b; discriminate E.
    + assert (Hl : List.length l = Z.to_nat m).
      { apply (f_equal (@List.length T)) in E.
        rewrite length_app in E. simpl in E. lia. }
      unfold lastn. simpl tl. rewrite !length_app. simpl List.length.
      rewrite Hl.
      replace (Z.to_nat m + List.length rest - Z.to_nat m)%nat
        with (List.length rest) by lia.
      replace (S (Z.to_nat m) + List.length rest - Z.to_nat m)%nat
        with (S (List.length rest)) by lia.
      reflexivity.
  - unfold push. rewrite <- app_assoc. reflexivity.
Qed.

Lemma lastn_all {T : Type} (n : nat) (l : list T) :
  (List.length l <= n)%nat -> lastn n l = l.
Proof.
  intros H. unfold lastn.
  replace (List.length l - n)%nat with 0%nat by lia. reflexivity.
Qed.

(** the window invariant of the two sample arrays *)
Lemma record_all_window samples : forall h,
  (0 <= maxHistoryLength h)%Z ->
  (Z.of_nat (List.length (earValues h)) <= maxHistoryLength h)%Z ->
  List.length (timestamps h) = List.length (earValues h) ->
  let h' := record_all cfg samples h in
  (Z.of_nat (List.length (earValues h')) <= maxHistoryLength h)%Z /\
  List.length (timestamps h') = List.length (earValues h') /\
  earValues h' = lastn (Z.to_nat (maxHistoryLength h))
                       (earValues h ++ map fst samples) /\
  timestamps h' = lastn (Z.to_nat (maxHistoryLength h))
                        (timestamps h ++ map snd samples).
Proof.
  induction samples as [|[ear now] samples IH]; intros h Hm Hb Ht; cbv zeta.
  - simpl. rewrite !app_nil_r, !lastn_all by lia. repeat split; auto.
  - set (h1 := fst (analyzeDrowsinessPattern cfg h ear now)).
    assert (E1 : earValues h1 = trim (maxHistoryLength h) (push (earValues h) ear))
      by reflexivity.
    assert (T1 : timestamps h1 = trim (maxHistoryLength h) (push (timestamps h) now))
      by (apply analyze_timestamps_trim; exact Ht).
    assert (M1 : maxHistoryLength h1 = maxHistoryLength h) by reflexivity.
    assert (L1 : (Z.of_nat (List.length (earValues h1)) <= maxHistoryLength h1)%Z).
    { rewrite E1, M1. apply trim_length; assumption. }
    assert (L2 : List.length (timestamps h1) = List.length (earValues h1)).
    { rewrite E1, T1. unfold trim. rewrite !length_push, Ht.
      destruct (maxHistoryLength h <? Z.of_nat (S (List.length (earValues h))))%Z;
        rewrite ?length_shift, !length_push, ?Ht; reflexivity. }
    specialize (IH h1 ltac:(rewrite M1; exact Hm) L1 L2).
    cbv zeta in IH. rewrite M1 in IH.
    destruct IH as (I1 & I2 & I3 & I4).
    change (record_all cfg ((ear, now) :: samples) h) with (record_all cfg samples h1).
    repeat split; auto.
    + rewrite I3, E1. apply trim_lastn; assumption.
    + rewrite I4, T1. apply trim_lastn; [assumption|]. rewrite Ht. exact Hb.
Qed.

End HistoryBuffer.

(** C7: starting from empty buffers of capacity [m], after any sequence of
    recorded samples the buffers hold at most [m] entries, and once
    [m + k] samples ([k >= 1]) were recorded [earValues] and [timestamps]
    are exactly the last [m] of them, oldest first. *)
Theorem C7_history_window (cfg : DrowsinessConfig) (m : Z)
    (samples : list (float * Z)) :
  (0 <= m)%Z ->
  let h := record_all cfg samples (empty_history m) in
  (Z.of_nat (List.length (earValues h)) <= m)%Z /\
  (Z.of_nat (List.length (timestamps h)) <= m)%Z /\
  forall k : nat,
    (1 <= k)%nat -> List.length samples = (Z.to_nat m + k)%nat ->
    earValues h = skipn k (map fst samples) /\
    timestamps h = skipn k (map snd samples) /\
    List.length (earValues h) = Z.to_nat m.
Proof.
  intros Hm h.
  destruct (@record_all_window cfg samples (empty_history m)) as (I1 & I2 & I3 & I4);
    simpl; try lia.
  fold h in I1, I2, I3, I4. simpl in I1, I3, I4.
  repeat split.
  - exact I1.
  - rewrite I2. exact I1.
  - rewrite I3. unfold lastn. rewrite length_map.
    replace (List.length samples - Z.to_nat m)%nat with k by lia. reflexivity.
  - rewrite I4. unfold lastn. rewrite length_map.
    replace (List.length samples - Z.to_nat m)%nat with k by lia. reflexivity.
  - rewrite I3. unfold lastn. rewrite length_skipn, !length_map. lia.
Qed.

Lemma C7_history_window_witness :
  let h := record_all default_config threeSamples (empty_history 2) in
  (Z.of_nat (List.length (earValues h)) <= 2)%Z /\
  (Z.of_nat (List.length (timestamps h)) <= 2)%Z /\
  forall k : nat,
    (1 <= k)%nat -> List.length threeSamples = (Z.to_nat 2 + k)%nat ->
    earValues h = skipn k (map fst threeSamples) /\
    timestamps h = skipn k (map snd threeSamples) /\
    List.length (earValues h) = Z.to_nat 2.
Proof.
  apply (@C7_history_window default_config 2 threeSamples). lia.
Defined.

(** C8: a call of [analyzeDrowsinessPattern] on a history whose three
    arrays have the same length (and whose capacity is at least 1, as the
    100 the program uses) leaves them with the same length. *)
Theorem C8_parallel_lengths (cfg : DrowsinessConfig) (h : DetectionHistory)
    (ear : float) (now : Z) :
  (1 <= maxHistoryLength h)%Z ->
  List.length (earValues h) = List.length (timestamps h) ->
  List.length (timestamps h) = List.length (blinkStates h) ->
  let h' := fst (analyzeDrowsinessPattern cfg h ear now) in
  List.length (earValues h') = List.length (timestamps h') /\
  List.length (timestamps h') = List.length (blinkStates h').
Proof.
  intros Hm E1 E2 h'.
  destruct (analyze_blinkStates cfg h ear now) as [isBlink B].
  fold h' in B. rewrite B. unfold h'.
  rewrite analyze_earValues, analyze_timestamps. unfold trim.
  rewrite !length_push.
  destruct (Z.ltb_spec (maxHistoryLength h) (Z.of_nat (S (List.length (earValues h)))))
    as [H | H];
    rewrite ?length_push, ?length_shift, ?length_push; split; lia.
Qed.

Lemma C8_parallel_lengths_witness :
  let h' := fst (analyzeDrowsinessPattern default_config initial_history 0.3 1000) in
  List.length (earValues h') = List.length (timestamps h') /\
  List.length (timestamps h') = List.length (blinkStates h').
Proof.
  apply (@C8_parallel_lengths default_config initial_history 0.3%float 1000%Z);
    simpl; try reflexivity; lia.
Defined.

(** ** Sustained closure and the score override *)

Section Comparisons.

Open Scope float_scope.

Lemma ltb_leb (a b : float) : (a <? b) = true -> (a <=? b) = true.
Proof.
  rewrite ltb_spec, leb_spec. unfold SFltb, SFleb.
  destruct (SFcompare (Prim2SF a) (Prim2SF b)) as [[]|]; auto.
Qed.

Lemma SFcompare_antisym (u v : spec_float) :
  SFcompare v u = option_map CompOpp (SFcompare u v).
Proof.
  destruct u as [su | su | | su mu eu], v as [sv | sv | | sv mv ev]; simpl;
    try reflexivity;
    try (destruct su; reflexivity); try (destruct sv; reflexivity);
    try (destruct su, sv; reflexivity).
  destruct su, sv; simpl; try reflexivity;
    rewrite (Z.compare_antisym eu ev);
    destruct (eu ?= ev)%Z; simpl; try reflexivity;
    rewrite (Pos.compare_cont_antisym mu mv Eq); simpl;
    rewrite ?CompOpp_involutive; reflexivity.
Qed.

Lemma SFcompare_none (u v : spec_float) :
  SFcompare u v = None -> u = S754_nan \/ v = S754_nan.
Proof.
  destruct u, v; simpl; intros H; try discriminate H; auto.
Qed.

Lemma is_nan_spec_false (v : float) : is_nan v = false -> Prim2SF v <> S754_nan.
Proof.
  intros H E. apply is_nan_of_spec in E. congruence.
Qed.

(** among numbers, "not below" is "at or above" *)
Lemma not_ltb_leb (a b : float) :
  is_nan a = false -> is_nan b = false -> (a <? b) = false -> (b <=? a) = true.
Proof.
  intros Ha Hb. rewrite ltb_spec, leb_spec. unfold SFltb, SFleb.
  rewrite (SFcompare_antisym (Prim2SF a) (Prim2SF b)).
  destruct (SFcompare (Prim2SF a) (Prim2SF b)) as [[]|] eqn:E; simpl; auto.
  destruct (SFcompare_none _ _ E) as [N | N];
    [apply is_nan_spec_false in Ha | apply is_nan_spec_false in Hb]; contradiction.
Qed.

(** [Math.max(score, 95)] is NaN or at least 95 *)
Lemma Math_max_95 (score : float) :
  is_nan (Math_max score 95) = true \/ (95 <=? Math_max score 95) = true.
Proof.
  unfold Math_max.
  replace (is_nan 95) with false by reflexivity.
  rewrite orb_false_r.
  destruct (is_nan score) eqn:N; [left; reflexivity|right].
  destruct (score <? 95) eqn:L1; [reflexivity|].
  destruct (95 <? score) eqn:L2; [apply ltb_leb; exact L2|].
  destruct (get_sign score); [reflexivity|].
  apply not_ltb_leb; auto.
Qed.

End Comparisons.

(** sustained closure forces [isDrowsy] and the critical level *)
Lemma sustained_forces_critical (cfg : DrowsinessConfig)
    (h : DetectionHistory) (ear : float) (now : Z) :
  isSustainedClosure (snd (analyzeDrowsinessPattern cfg h ear now)) = true ->
  isDrowsy (snd (analyzeDrowsinessPattern cfg h ear now)) = true /\
  alertLevel (snd (analyzeDrowsinessPattern cfg h ear now)) = critical.
Proof.
  unfold analyzeDrowsinessPattern.
  cbn [snd isSustainedClosure isDrowsy alertLevel].
  intros S. rewrite !S. unfold deriveAlert. cbn [fst].
  split; [apply orb_true_r | reflexivity].
Qed.

(** Sustained closure always gives [isDrowsy] and the critical level, and
    the score after the override is at least 95 whenever it is a number:
    only a NaN escapes the override. *)
Lemma sustained_closure_assessment (cfg : DrowsinessConfig)
    (h : DetectionHistory) (ear : float) (now : Z) :
  let a := snd (analyzeDrowsinessPattern cfg h ear now) in
  isSustainedClosure a = true ->
  isDrowsy a = true /\
  alertLevel a = critical /\
  (PrimFloat.is_nan (drowsinessScore a) = true \/
   PrimFloat.leb 95 (drowsinessScore a) = true) /\
  PrimFloat.ltb ear (earThreshold cfg) = true /\
  (3000 <= eyeClosureDuration a)%Z.
Proof.
  intros a. unfold a, analyzeDrowsinessPattern. cbn [snd isSustainedClosure isDrowsy
    alertLevel drowsinessScore eyeClosureDuration].
  intros S. rewrite !S. unfold deriveAlert. cbn [fst].
  repeat split.
  - apply orb_true_r.
  - apply Math_max_95.
  - unfold trackClosure in S.
    destruct (PrimFloat.ltb ear (earThreshold cfg)); [reflexivity|].
    destruct (eyeClosureStartTime h); simpl in S; discriminate S.
  - apply Z.leb_le. exact S.
Qed.

(** C2: the override [Math.max(drowsinessScore, 95)] is meant to force a
    high score on sustained closure, but it lets a NaN through.  A frame
    whose eye landmarks all coincide is measured as NaN; with that sample
    still in the window, the frame that reaches 3000 ms of closure has
    [isSustainedClosure], [isDrowsy] and level critical, and a
    [drowsinessScore] of NaN, which is not [>= 95]. *)
Theorem C2_nan_score_under_sustained_closure :
  measure collapsedFace = Ok (nan, nan) /\
  let a := snd (analyzeDrowsinessPattern default_config
                  (record_all default_config nanThenClosed initial_history)
                  0.05 (T0 + 3100)) in
  isSustainedClosure a = true /\
  eyeClosureDuration a = 3000%Z /\
  alertLevel a = critical /\
  isDrowsy a = true /\
  drowsinessScore a = nan /\
  PrimFloat.leb 95 (drowsinessScore a) = false.
Proof.
  vm_compute. repeat split; reflexivity.
Qed.

(** ** The alert decision *)

Lemma emitted_faceFrameIn (cap : Closure) (avg : float) (c : Clock) (e : Engine) :
  emitted (faceFrameIn cap avg c e)
  = emitted (raiseAlertsIn cap
               (snd (analyzeDrowsinessPattern (cap_config cap) (history e) avg
                       (t_frame c)))
               c e).
Proof. reflexivity. Qed.

Lemma emitted_raiseAlertsIn (cap : Closure) (a : Analysis) (c : Clock) (e : Engine) :
  emitted (raiseAlertsIn cap a c e)
  = if ((isSustainedClosure a && negb (Level_eqb (cap_level cap) critical))
        || (isDrowsy a
            && (alertCooldown (cap_config cap) <? t_check c - cap_lastAlertTime cap)%Z))%bool
    then emitted e ++ [event a c]
    else emitted e.
Proof.
  unfold raiseAlertsIn.
  destruct (isSustainedClosure a && negb (Level_eqb (cap_level cap) critical))%bool;
    [reflexivity|].
  destruct (isDrowsy a
            && (alertCooldown (cap_config cap) <? t_check c - cap_lastAlertTime cap)%Z)%bool;
    reflexivity.
Qed.

Lemma emitted_faceFrame (avg : float) (c : Clock) (e : Engine) :
  emitted (faceFrame avg c e)
  = emitted (raiseAlerts
               (snd (analyzeDrowsinessPattern (config e) (history e) avg (t_frame c)))
               c e).
Proof. reflexivity. Qed.

Lemma emitted_raiseAlerts (a : Analysis) (c : Clock) (e : Engine) :
  emitted (raiseAlerts a c e)
  = if ((isSustainedClosure a && negb (Level_eqb (level (alertState e)) critical))
        || (isDrowsy a && (alertCooldown (config e) <? t_check c - lastAlertTime e)%Z))%bool
    then emitted e ++ [event a c]
    else emitted e.
Proof. exact (emitted_raiseAlertsIn (capture e) a c e). Qed.

Lemma Level_eqb_eq (a b : Level) : Level_eqb a b = true <-> a = b.
Proof. destruct a, b; simpl; split; congruence. Qed.

(** C1, as stated, fails.  On the fresh component the first frame, with
    closed eyes, derives level critical (score above 80, no sustained
    closure); it is not drowsy by the frame ratio, and no alert is
    raised. *)
Lemma C1_critical_frame_not_raised :
  let e := initial_engine in
  let c := at_time T0 in
  let a := snd (analyzeDrowsinessPattern (config e) (history e) 0 (t_frame c)) in
  measure closedFace = Ok (0%float, 0%float) /\
  alertLevel a = critical /\
  PrimFloat.ltb 80 (drowsinessScore a) = true /\
  isSustainedClosure a = false /\
  isDrowsy a = false /\
  emitted (detectFaceAndEyes [closedFace] c e) = [] /\
  emitted (frames [([closedFace], T0)] e) = [].
Proof.
  vm_compute. repeat split; reflexivity.
Qed.

(** The cooldown suppresses a critical level too: in the loop started
    after the alert of [T0 + 700] was dismissed, the frame at [T0 + 1000]
    derives level critical with [isDrowsy] true and raises nothing, only
    300 ms having elapsed since the [lastAlertTime] the callback holds. *)
Lemma critical_frame_within_captured_cooldown :
  let e := restartedAfterDismissedCritical in
  let c := at_time (T0 + 1000) in
  let a := snd (analyzeDrowsinessPattern (config e) (history e) 0 (t_frame c)) in
  cap_lastAlertTime (capture e) = (T0 + 700)%Z /\
  alertLevel a = critical /\
  isSustainedClosure a = false /\
  isDrowsy a = true /\
  emitted (frames [([closedFace], (T0 + 1000)%Z)] e) = emitted e.
Proof.
  vm_compute. repeat split; reflexivity.
Qed.

(** C1, amended: a frame whose derived level is critical raises the alert
    regardless of the cooldown only when the closure is sustained and the
    [alertState.level] held by the running callback is not critical; in
    every other case (level critical from a score above 80, or sustained
    closure while the held level is critical) it is raised exactly when
    [isDrowsy] holds and more than [alertCooldown] ms have elapsed since
    the [lastAlertTime] held by the callback. *)
Theorem C1_critical_raise_policy (cap : Closure) (avg : float) (c : Clock)
    (e : Engine) :
  let a := snd (analyzeDrowsinessPattern (cap_config cap) (history e) avg (t_frame c)) in
  alertLevel a = critical ->
  (isSustainedClosure a = true -> cap_level cap <> critical ->
   emitted (faceFrameIn cap avg c e)
   = emitted e ++ [{| ev_level := critical; ev_message := alertMessage a;
                      ev_timestamp := t_trigger c |}]) /\
  (isSustainedClosure a = false \/ cap_level cap = critical ->
   emitted (faceFrameIn cap avg c e)
   = if (isDrowsy a
         && (alertCooldown (cap_config cap) <? t_check c - cap_lastAlertTime cap)%Z)%bool
     then emitted e ++ [{| ev_level := critical; ev_message := alertMessage a;
                           ev_timestamp := t_trigger c |}]
     else emitted e).
Proof.
  intros a Hc.
  rewrite emitted_faceFrameIn. fold a. rewrite emitted_raiseAlertsIn.
  unfold event. rewrite Hc. split.
  - intros Hs Hl. rewrite Hs.
    destruct (Level_eqb (cap_level cap) critical) eqn:E.
    + apply Level_eqb_eq in E. contradiction.
    + reflexivity.
  - intros [Hs | Hl].
    + rewrite Hs. reflexivity.
    + apply Level_eqb_eq in Hl. rewrite Hl, andb_false_r. reflexivity.
Qed.

Lemma C1_critical_raise_policy_witness :
  let e := restartedAfterDismissedCritical in
  let cap := capture e in
  let c := at_time (T0 + 1000) in
  let a := snd (analyzeDrowsinessPattern (cap_config cap) (history e) 0 (t_frame c)) in
  (isSustainedClosure a = true -> cap_level cap <> critical ->
   emitted (faceFrameIn cap 0 c e)
   = emitted e ++ [{| ev_level := critical; ev_message := alertMessage a;
                      ev_timestamp := t_trigger c |}]) /\
  (isSustainedClosure a = false \/ cap_level cap = critical ->
   emitted (faceFrameIn cap 0 c e)
   = if (isDrowsy a
         && (alertCooldown (cap_config cap) <? t_check c - cap_lastAlertTime cap)%Z)%bool
     then emitted e ++ [{| ev_level := critical; ev_message := alertMessage a;
                           ev_timestamp := t_trigger c |}]
     else emitted e).
Proof.
  apply (@C1_critical_raise_policy (capture restartedAfterDismissedCritical) 0%float
           (at_time (T0 + 1000)) restartedAfterDismissedCritical).
  vm_compute. reflexivity.
Defined.

Lemma capture_startCamera (t_id t_start : Z) (e : Engine) :
  capture (startCamera t_id t_start e) = capture e.
Proof. reflexivity. Qed.

Lemma capture_stopCamera (t_end t_dur : Z) (e : Engine) :
  capture (stopCamera t_end t_dur e) = capture e.
Proof. reflexivity. Qed.

(** C5, as stated, fails.  A loop on the fresh component raises a critical
    alert at [T0 + 700]; the user dismisses it, stops the camera and starts
    it again, so the new loop's callback holds level critical and
    [lastAlertTime = T0 + 700].  The eyes have stayed closed since [T0]:
    the frame at [T0 + 3000] has sustained closure while the alert is
    inactive, and raises nothing, because the held level is critical and
    only 2300 ms have elapsed since the held [lastAlertTime]. *)
Lemma C5_sustained_closure_not_raised_after_restart :
  let e := restartedAfterDismissedCritical in
  let c := at_time (T0 + 3000) in
  let a := snd (analyzeDrowsinessPattern (config e) (history e) 0 (t_frame c)) in
  emitted (frames (closedRun 8 100) initial_engine)
  = [{| ev_level := critical;
        ev_message := "CRITICAL: Severe drowsiness detected! Please stop and rest immediately.";
        ev_timestamp := (T0 + 700)%Z |}] /\
  isActive (alertState e) = false /\
  cap_level (capture e) = critical /\
  cap_lastAlertTime (capture e) = (T0 + 700)%Z /\
  eyeClosureStartTime (history e) = Some T0 /\
  isSustainedClosure a = true /\
  eyeClosureDuration a = 3000%Z /\
  emitted (frames [([closedFace], (T0 + 3000)%Z)] e) = emitted e /\
  isActive (alertState (frames [([closedFace], (T0 + 3000)%Z)] e)) = false.
Proof.
  vm_compute. repeat split; reflexivity.
Qed.

(** C5, amended: on a frame with sustained closure the critical alert is
    raised at once whenever the [alertState.level] held by the running
    callback is not critical, whatever the alert state is at that moment;
    when the held level is critical it is raised only if more than
    [alertCooldown] ms have elapsed since the [lastAlertTime] held by the
    callback.  [dismissAlert] and the auto-dismiss timer clear [isActive]
    and leave the level as it was, so a callback created after a
    dismissed critical alert holds level critical. *)
Theorem C5_sustained_closure_raise (cap : Closure) (avg : float) (c : Clock)
    (e : Engine) :
  let a := snd (analyzeDrowsinessPattern (cap_config cap) (history e) avg (t_frame c)) in
  isSustainedClosure a = true ->
  (cap_level cap <> critical ->
   emitted (faceFrameIn cap avg c e) = emitted e ++ [event a c]) /\
  (cap_level cap = critical ->
   emitted (faceFrameIn cap avg c e)
   = if (alertCooldown (cap_config cap) <? t_check c - cap_lastAlertTime cap)%Z
     then emitted e ++ [event a c] else emitted e) /\
  ev_level (event a c) = critical /\
  cap_level (capture (dismissAlert e)) = level (alertState e) /\
  isActive (alertState (dismissAlert e)) = false /\
  cap_level (capture (autoDismiss e)) = level (alertState e).
Proof.
  intros a Hs.
  destruct (sustained_forces_critical (cap_config cap) (history e) avg (t_frame c) Hs)
    as (Hd & Hl).
  fold a in Hd, Hl.
  rewrite emitted_faceFrameIn. fold a. rewrite emitted_raiseAlertsIn, Hs, Hd.
  repeat split.
  - intros Hn. destruct (Level_eqb (cap_level cap) critical) eqn:E.
    + apply Level_eqb_eq in E. contradiction.
    + reflexivity.
  - intros Hc. apply Level_eqb_eq in Hc. rewrite Hc. reflexivity.
  - exact Hl.
  - unfold autoDismiss. destruct (alertTimeout e); reflexivity.
Qed.

Lemma C5_sustained_closure_raise_witness :
  let e := restartedAfterDismissedCritical in
  let cap := capture e in
  let c := at_time (T0 + 3000) in
  let a := snd (analyzeDrowsinessPattern (cap_config cap) (history e) 0 (t_frame c)) in
  (cap_level cap <> critical ->
   emitted (faceFrameIn cap 0 c e) = emitted e ++ [event a c]) /\
  (cap_level cap = critical ->
   emitted (faceFrameIn cap 0 c e)
   = if (alertCooldown (cap_config cap) <? t_check c - cap_lastAlertTime cap)%Z
     then emitted e ++ [event a c] else emitted e) /\
  ev_level (event a c) = critical /\
  cap_level (capture (dismissAlert e)) = level (alertState e) /\
  isActive (alertState (dismissAlert e)) = false /\
  cap_level (capture (autoDismiss e)) = level (alertState e).
Proof.
  apply (@C5_sustained_closure_raise (capture restartedAfterDismissedCritical) 0%float
           (at_time (T0 + 3000)) restartedAfterDismissedCritical).
  vm_compute. reflexivity.
Defined.

(** ** Frames without a face *)

(** C6, as stated, fails: the closure that started at [T0] is still
    recorded after two frames without a face, and the next closed frame,
    at [T0 + 5000], reports a closure of 5000 ms and raises the
    sustained-closure alert. *)
Lemma C6_closure_accumulates_across_gap :
  let e := afterNoFaceGap in
  let e' := detectFaceAndEyes [closedFace] (at_time (T0 + 5000)) e in
  eyeClosureStartTime (history e) = Some T0 /\
  List.length (earValues (history e)) = 1%nat /\
  stats_eyeClosureDuration (stats e') = 5000%Z /\
  emitted e = [] /\
  emitted e'
  = [{| ev_level := critical;
        ev_message := "CRITICAL: Eyes closed for 5 seconds! Wake up immediately!";
        ev_timestamp := (T0 + 5000)%Z |}].
Proof.
  vm_compute. repeat split; reflexivity.
Qed.

(** C6, amended: a frame without a face does no closure arithmetic of its
    own (the history, with its stored start time, and the alert state are
    left as they were, and the displayed closure duration is zeroed), but
    the stored start time is carried forward: a later frame with closed
    eyes at time [t] measures its closure from the start recorded before
    the gap. *)
Theorem C6_no_face_keeps_closure_start (c c' : Clock) (e : Engine)
    (avg : float) (s : Z) :
  eyeClosureStartTime (history e) = Some s ->
  PrimFloat.ltb avg (earThreshold (config e)) = true ->
  let e1 := detectFaceAndEyes [] c e in
  history e1 = history e /\
  emitted e1 = emitted e /\
  alertState e1 = alertState e /\
  stats_eyeClosureDuration (stats e1) = 0%Z /\
  stats_eyeClosureDuration (stats (faceFrame avg c' e1)) = (t_frame c' - s)%Z /\
  eyeClosureStartTime (history (faceFrame avg c' e1)) = Some s.
Proof.
  intros Hs Hclosed e1. unfold e1, detectFaceAndEyes. cbn [detectFaceAndEyesIn].
  repeat split.
  - unfold faceFrame, faceFrameIn, capture, noFaceFrame.
    cbn [stats history config stats_eyeClosureDuration cap_config].
    unfold analyzeDrowsinessPattern. cbn [snd eyeClosureDuration].
    rewrite Hclosed. unfold trackClosure. rewrite Hs. reflexivity.
  - unfold faceFrame, faceFrameIn, capture, noFaceFrame.
    cbn [history config cap_config].
    unfold analyzeDrowsinessPattern. cbn [fst eyeClosureStartTime].
    rewrite Hclosed. unfold trackClosure. rewrite Hs. reflexivity.
Qed.

Lemma C6_no_face_keeps_closure_start_witness :
  let e := frames [([closedFace], T0)] initial_engine in
  let e1 := detectFaceAndEyes [] (at_time (T0 + 100)) e in
  history e1 = history e /\
  emitted e1 = emitted e /\
  alertState e1 = alertState e /\
  stats_eyeClosureDuration (stats e1) = 0%Z /\
  stats_eyeClosureDuration (stats (faceFrame 0 (at_time (T0 + 5000)) e1))
  = (t_frame (at_time (T0 + 5000)) - T0)%Z /\
  eyeClosureStartTime (history (faceFrame 0 (at_time (T0 + 5000)) e1)) = Some T0.
Proof.
  apply (@C6_no_face_keeps_closure_start (at_time (T0 + 100)) (at_time (T0 + 5000))
           (frames [([closedFace], T0)] initial_engine) 0%float T0);
    vm_compute; reflexivity.
Defined.

(** ** Sessions *)

Lemma sessions_detectFaceAndEyes predictions (c : Clock) (e : Engine) :
  sessions (analytics (detectFaceAndEyes predictions c e)) = sessions (analytics e).
Proof.
  unfold detectFaceAndEyes, detectFaceAndEyesIn.
  destruct predictions as [|face rest]; [reflexivity|].
  destruct (measure face) as [[avg mouthAR]|]; reflexivity.
Qed.

(** C10: starting a session while one is open installs a fresh zeroed
    session and leaves the archive untouched: the open session is dropped
    without an end time and is not archived.  Of the operations on the
    analytics, only [endSession] changes the archive. *)
Theorem C10_startSession_discards_open_session (t_id t_start : Z)
    (prev : AnalyticsData) (open : SessionData) :
  currentSession prev = Some open ->
  let next := startSession t_id t_start prev in
  currentSession next = Some (newSession t_id t_start) /\
  sessions next = sessions prev /\
  startTime (newSession t_id t_start) = t_start /\
  endTime (newSession t_id t_start) = None /\
  duration (newSession t_id t_start) = 0%Z /\
  totalBlinks (newSession t_id t_start) = 0%Z /\
  totalAlerts (newSession t_id t_start) = 0%Z /\
  earHistory (newSession t_id t_start) = [] /\
  drowsinessHistory (newSession t_id t_start) = [] /\
  (forall st t_end t_dur,
      (* ending afterwards archives the new session, not the dropped one *)
      map id (sessions (endSession st t_end t_dur next))
      = id (newSession t_id t_start) :: map id (firstn 49 (sessions prev)) /\
      (* whereas ending without the restart archives the open one *)
      map id (sessions (endSession st t_end t_dur prev))
      = id open :: map id (firstn 49 (sessions prev)) /\
      map endTime (firstn 1 (sessions (endSession st t_end t_dur prev)))
      = [Some t_end]) /\
  (forall blinks ear score lvl now,
      sessions (updateAnalytics blinks ear score lvl now prev) = sessions prev) /\
  (forall predictions c e,
      sessions (analytics (detectFaceAndEyes predictions c e)) = sessions (analytics e)).
Proof.
  intros Hopen next.
  repeat split; try reflexivity.
  - unfold endSession. rewrite Hopen. reflexivity.
  - unfold endSession. rewrite Hopen. reflexivity.
  - apply sessions_detectFaceAndEyes.
Qed.

Lemma C10_startSession_witness :
  let next := startSession (T0 + 5000) (T0 + 5000) openAnalytics in
  currentSession next = Some (newSession (T0 + 5000) (T0 + 5000)) /\
  sessions next = [].
Proof.
  destruct (@C10_startSession_discards_open_session (T0 + 5000) (T0 + 5000)
              openAnalytics (newSession T0 T0) eq_refl) as (H1 & H2 & _).
  split; [exact H1 | exact H2].
Defined.

(** * Further properties *)

(** ** The range of the drowsiness score *)

Section ScoreRange.

Open Scope float_scope.

Lemma binary_round_aux_sign (s : bool) (m e : Z) (l : location) :
  match binary_round_aux prec emax s m e l with
  | S754_nan | S754_zero _ => True
  | S754_infinity s' | S754_finite s' _ _ => s' = s
  end.
Proof.
  unfold binary_round_aux.
  destruct (shr_fexp prec emax m e l) as [mrs' e'].
  destruct (shr_fexp prec emax
              (round_nearest_even (shr_m mrs') (loc_of_shr_record mrs')) e' loc_Exact)
    as [mrs'' e''].
  destruct (shr_m mrs''); [exact I | | exact I].
  destruct (e'' <=? emax - prec)%Z; reflexivity.
Qed.

Lemma binary_round_aux_nonneg (m e : Z) (l : location) :
  SFnonneg (binary_round_aux prec emax false m e l).
Proof.
  pose proof (binary_round_aux_sign false m e l) as H. unfold SFnonneg.
  destruct (binary_round_aux prec emax false m e l); auto.
Qed.

Lemma SFadd_nonneg (u v : spec_float) :
  SFnonneg u -> SFnonneg v -> SFnonneg (SF64add u v).
Proof.
  unfold SF64add.
  destruct u as [su | su | | su mu eu], v as [sv | sv | | sv mv ev];
    simpl; intros Hu Hv; subst; try exact I; try reflexivity.
  - destruct su, sv; exact I.
  - destruct (shl_align mu eu (IntDef.Z.min eu ev)) as [a ea].
    destruct (shl_align mv ev (IntDef.Z.min eu ev)) as [b eb].
    simpl. unfold binary_round.
    destruct (shl_align _ _ _) as [mz ez]. apply binary_round_aux_nonneg.
Qed.

Lemma SFdiv_two_nonneg (u : spec_float) :
  SFnonneg u -> SFnonneg (SF64div u (Prim2SF 2)).
Proof.
  unfold SF64div.
  replace (Prim2SF 2) with (S754_finite false 4503599627370496 (-51)) by reflexivity.
  destruct u as [su | su | | su mu eu]; simpl; intros Hu; subst;
    try exact I; try reflexivity.
  destruct (SFdiv_core_binary _ _ _ _ _ _) as [[mz ez] lz].
  apply binary_round_aux_nonneg.
Qed.

Lemma ltb_zero_nonneg (v : float) : (0 <? v) = true -> SFnonneg (Prim2SF v).
Proof.
  rewrite ltb_spec. unfold SFltb.
  replace (Prim2SF 0) with (S754_zero false) by reflexivity.
  destruct (Prim2SF v) as [s | s | | s m e]; simpl; try (intros; exact I);
    destruct s; intros H; try discriminate H; reflexivity.
Qed.

(** [Math.max(0, v)] is NaN or not below zero *)
Lemma Math_max_zero_nonneg (v : float) : SFnonneg (Prim2SF (Math_max 0 v)).
Proof.
  unfold Math_max.
  replace (is_nan 0) with false by reflexivity. rewrite orb_false_l.
  destruct (is_nan v); [exact I|].
  destruct (0 <? v) eqn:L; [apply ltb_zero_nonneg; exact L|].
  destruct (v <? 0); [exact I|].
  replace (get_sign 0) with false by reflexivity. exact I.
Qed.

Lemma nonneg_leb (v : float) :
  SFnonneg (Prim2SF v) -> is_nan v = false -> (0 <=? v) = true.
Proof.
  intros H N. apply is_nan_spec_false in N.
  rewrite leb_spec. unfold SFleb.
  replace (Prim2SF 0) with (S754_zero false) by reflexivity.
  destruct (Prim2SF v) as [s | s | | s m e]; simpl in *; subst;
    try reflexivity; contradiction.
Qed.

(** [Math.min(100, w)] is NaN, or at most 100 and of the sign of [w] *)
Lemma Math_min_100 (w : float) :
  SFnonneg (Prim2SF w) ->
  is_nan (Math_min 100 w) = true \/
  (SFnonneg (Prim2SF (Math_min 100 w)) /\ (Math_min 100 w <=? 100) = true).
Proof.
  intros Hw. unfold Math_min.
  replace (is_nan 100) with false by reflexivity. rewrite orb_false_l.
  destruct (is_nan w) eqn:N; [left; reflexivity|right].
  destruct (100 <? w) eqn:L1; [split; [vm_compute; reflexivity | reflexivity]|].
  destruct (w <? 100) eqn:L2; [split; [exact Hw | apply ltb_leb; exact L2]|].
  replace (get_sign 100) with false by reflexivity.
  split; [exact Hw | apply not_ltb_leb; auto].
Qed.

(** the override keeps a score within the range it was in *)
Lemma Math_max_95_range (score : float) :
  is_nan score = false ->
  SFnonneg (Prim2SF score) -> (score <=? 100) = true ->
  SFnonneg (Prim2SF (Math_max score 95)) /\ (Math_max score 95 <=? 100) = true.
Proof.
  intros N Hs Hle. unfold Math_max.
  replace (is_nan 95) with false by reflexivity. rewrite orb_false_r, N.
  destruct (score <? 95); [split; [vm_compute; reflexivity | reflexivity]|].
  destruct (95 <? score); [split; assumption|].
  destruct (get_sign score); [split; [vm_compute; reflexivity | reflexivity] | split; assumption].
Qed.

Lemma Math_max_nan_l (score b : float) :
  is_nan score = true -> is_nan (Math_max score b) = true.
Proof. intros N. unfold Math_max. rewrite N. reflexivity. Qed.

Lemma score_range (u v : float) (sustained : bool) :
  let score := Math_min 100 ((Math_max 0 u + Math_max 0 v) / 2) in
  let score' := if sustained then Math_max score 95 else score in
  is_nan score' = true \/ ((0 <=? score') = true /\ (score' <=? 100) = true).
Proof.
  intros score score'.
  assert (Hw : SFnonneg (Prim2SF ((Math_max 0 u + Math_max 0 v) / 2))).
  { rewrite div_spec, add_spec.
    apply SFdiv_two_nonneg, SFadd_nonneg; apply Math_max_zero_nonneg. }
  destruct (Math_min_100 _ Hw) as [N | [Hn Hle]]; fold score in N || fold score in Hn, Hle.
  - left. unfold score'. destruct sustained; [apply Math_max_nan_l|]; exact N.
  - destruct (is_nan score) eqn:N.
    + left. unfold score'. destruct sustained; [apply Math_max_nan_l|]; exact N.
    + unfold score'. destruct sustained.
      * destruct (Math_max_95_range N Hn Hle) as [Hn' Hle'].
        destruct (is_nan (Math_max score 95)) eqn:N'; [left; reflexivity|right].
        split; [apply nonneg_leb; assumption | exact Hle'].
      * right. split; [apply nonneg_leb; assumption | exact Hle].
Qed.

End ScoreRange.

(** X1: whatever the history, the configuration and the sample, the
    [drowsinessScore] returned by [analyzeDrowsinessPattern] is NaN or lies
    between 0 and 100. *)
Theorem X1_drowsinessScore_range (cfg : DrowsinessConfig) (h : DetectionHistory)
    (ear : float) (now : Z) :
  let score := drowsinessScore (snd (analyzeDrowsinessPattern cfg h ear now)) in
  PrimFloat.is_nan score = true \/
  (PrimFloat.leb 0 score = true /\ PrimFloat.leb score 100 = true).
Proof.
  unfold analyzeDrowsinessPattern. cbn [snd drowsinessScore].
  apply score_range.
Qed.

(** ** The drowsy-frame ratio *)

Lemma slice_neg_length {T : Type} (n : Z) (l : list T) :
  (1 <= n)%Z ->
  List.length (slice (- n) l) = Nat.min (List.length l) (Z.to_nat n).
Proof.
  intros Hn. unfold slice.
  destruct (Z.ltb_spec (- n) 0) as [_ | H]; [|lia].
  rewrite length_skipn. lia.
Qed.

Lemma slice_neg_lastn {T : Type} (n : Z) (l : list T) :
  (1 <= n)%Z -> slice (- n) l = lastn (Z.to_nat n) l.
Proof.
  intros Hn. unfold slice, lastn.
  destruct (Z.ltb_spec (- n) 0) as [_ | H]; [|lia].
  f_equal. lia.
Qed.

Lemma small_Z_in_range (z : Z) :
  (0 <= z <= 20)%Z -> In z (map Z.of_nat (seq 0 21)).
Proof.
  intros H. rewrite <- (Z2Nat.id z) by lia.
  apply in_map, in_seq. lia.
Qed.

(** in binary64, [count >= frames * 0.8] decides [5 count >= 4 frames]
    for every frame count the slider can produce *)
Lemma ratio_test_exact (frames count : Z) :
  (0 <= frames <= 20)%Z -> (0 <= count <= 20)%Z ->
  PrimFloat.leb (PrimFloat.mul (Z2F frames) 0.8) (Z2F count)
  = (4 * frames <=? 5 * count)%Z.
Proof.
  intros Hf Hc.
  assert (All : forallb (fun f =>
            forallb (fun c =>
              Bool.eqb (PrimFloat.leb (PrimFloat.mul (Z2F f) 0.8) (Z2F c))
                       (4 * f <=? 5 * c)%Z)
              (map Z.of_nat (seq 0 21)))
            (map Z.of_nat (seq 0 21)) = true) by (vm_compute; reflexivity).
  rewrite forallb_forall in All.
  specialize (All frames (small_Z_in_range Hf)).
  rewrite forallb_forall in All.
  specialize (All count (small_Z_in_range Hc)).
  apply Bool.eqb_prop in All. exact All.
Qed.

(** X2: for every frame count the sensitivity slider can set (and the
    default 10), the frame is drowsy exactly when the closure is sustained
    or at least four fifths of that many frames, counted among the last
    [consecutiveFrames] retained EAR values, are below the threshold; the
    binary64 product [consecutiveFrames * 0.8] introduces no error. *)
Theorem X2_isDrowsy_ratio (cfg : DrowsinessConfig) (h : DetectionHistory)
    (ear : float) (now : Z) :
  (1 <= consecutiveFrames cfg <= 20)%Z ->
  let r := analyzeDrowsinessPattern cfg h ear now in
  let count := Z.of_nat (recentLowEARCount cfg (earValues (fst r))) in
  (count <= consecutiveFrames cfg)%Z /\
  isDrowsy (snd r)
  = ((4 * consecutiveFrames cfg <=? 5 * count)%Z || isSustainedClosure (snd r))%bool.
Proof.
  intros Hf r count.
  assert (Hc : (count <= consecutiveFrames cfg)%Z).
  { unfold count, recentLowEARCount.
    pose proof (filter_length_le
                  (fun ear0 => PrimFloat.ltb ear0 (earThreshold cfg))
                  (slice (- consecutiveFrames cfg) (earValues (fst r)))) as Hle.
    rewrite slice_neg_length in Hle by lia. lia. }
  split; [exact Hc|].
  unfold r, analyzeDrowsinessPattern. cbn [snd isDrowsy isSustainedClosure].
  f_equal.
  apply ratio_test_exact; [lia|].
  fold (recentLowEARCount cfg (earValues (fst r))). fold count. lia.
Qed.

Lemma X2_isDrowsy_ratio_witness :
  let r := analyzeDrowsinessPattern default_config initial_history 0.05 T0 in
  let count := Z.of_nat (recentLowEARCount default_config (earValues (fst r))) in
  (count <= consecutiveFrames default_config)%Z /\
  isDrowsy (snd r)
  = ((4 * consecutiveFrames default_config <=? 5 * count)%Z
     || isSustainedClosure (snd r))%bool.
Proof.
  apply (@X2_isDrowsy_ratio default_config initial_history 0.05%float T0).
  simpl; lia.
Defined.

(** ** The blink count *)

Lemma countRecentBlinks_fold (blinks : list bool) (oneMinuteAgo : Z)
    (l : list (nat * Z)) (init : Z) :
  (init <= fold_left
             (fun (count : Z) '(index, t) =>
                if ((oneMinuteAgo <? t)%Z && nth index blinks false)%bool
                then (count + 1)%Z else count) l init
   <= init + Z.of_nat (List.length l))%Z.
Proof.
  revert init. induction l as [|[index t] l IH]; intros init.
  - simpl. lia.
  - cbn [fold_left List.length].
    destruct ((oneMinuteAgo <? t)%Z && nth index blinks false)%bool.
    + specialize (IH (init + 1)%Z). lia.
    + specialize (IH init). lia.
Qed.

Lemma countRecentBlinks_bounds (ts : list Z) (blinks : list bool) (oneMinuteAgo : Z) :
  (0 <= countRecentBlinks ts blinks oneMinuteAgo <= Z.of_nat (List.length ts))%Z.
Proof.
  unfold countRecentBlinks.
  pose proof (countRecentBlinks_fold blinks oneMinuteAgo
                (combine (seq 0 (List.length ts)) ts) 0) as H.
  rewrite length_combine, length_seq, Nat.min_id in H. lia.
Qed.

(** X3: the reported [blinkRate] is a count of retained samples: it is
    never negative and never exceeds the number of timestamps the history
    holds after the call. *)
Theorem X3_blinkRate_bounds (cfg : DrowsinessConfig) (h : DetectionHistory)
    (ear : float) (now : Z) :
  let r := analyzeDrowsinessPattern cfg h ear now in
  (0 <= blinkRate (snd r) <= Z.of_nat (List.length (timestamps (fst r))))%Z.
Proof.
  unfold analyzeDrowsinessPattern. cbn [fst snd blinkRate timestamps].
  apply countRecentBlinks_bounds.
Qed.

(** ** Closure tracking over a run of frames *)

Section ClosureRuns.

Variable cfg : DrowsinessConfig.

Lemma analyze_start_closed h ear now :
  PrimFloat.ltb ear (earThreshold cfg) = true ->
  eyeClosureStartTime (fst (analyzeDrowsinessPattern cfg h ear now))
  = Some (match eyeClosureStartTime h with Some s => s | None => now end).
Proof.
  intros Hc. unfold analyzeDrowsinessPattern. cbn [fst eyeClosureStartTime].
  rewrite Hc. reflexivity.
Qed.

Lemma analyze_duration_closed h ear now :
  PrimFloat.ltb ear (earThreshold cfg) = true ->
  eyeClosureDuration (snd (analyzeDrowsinessPattern cfg h ear now))
  = (now - match eyeClosureStartTime h with Some s => s | None => now end)%Z.
Proof.
  intros Hc. unfold analyzeDrowsinessPattern. cbn [snd eyeClosureDuration].
  rewrite Hc. reflexivity.
Qed.

Lemma closed_run_keeps_start samples : forall h s,
  allClosed cfg samples ->
  eyeClosureStartTime h = Some s ->
  eyeClosureStartTime (record_all cfg samples h) = Some s.
Proof.
  induction samples as [|[ear now] samples IH]; intros h s Hall Hs.
  - exact Hs.
  - inversion Hall as [|? ? Hc Hrest]; subst. simpl in Hc.
    change (record_all cfg ((ear, now) :: samples) h)
      with (record_all cfg samples (fst (analyzeDrowsinessPattern cfg h ear now))).
    apply IH; [exact Hrest|].
    rewrite analyze_start_closed by exact Hc. rewrite Hs. reflexivity.
Qed.

Lemma closed_run_start ear0 t0 samples h :
  allClosed cfg ((ear0, t0) :: samples) ->
  eyeClosureStartTime h = None ->
  eyeClosureStartTime (record_all cfg ((ear0, t0) :: samples) h) = Some t0.
Proof.
  intros Hall Hs. inversion Hall as [|? ? Hc Hrest]; subst. simpl in Hc.
  change (record_all cfg ((ear0, t0) :: samples) h)
    with (record_all cfg samples (fst (analyzeDrowsinessPattern cfg h ear0 t0))).
  apply closed_run_keeps_start; [exact Hrest|].
  rewrite analyze_start_closed by exact Hc. rewrite Hs. reflexivity.
Qed.

End ClosureRuns.

(** X4: after a run of frames all measured below the threshold that began
    at time [t0] with no closure in progress, a further closed frame at
    time [t] reports [eyeClosureDuration = t - t0] and is a sustained
    closure exactly when [t - t0 >= 3000], however many frames the run
    has and however they are spaced. *)
Theorem X4_closure_duration_over_run (cfg : DrowsinessConfig)
    (h : DetectionHistory) (ear0 : float) (t0 : Z)
    (samples : list (float * Z)) (ear : float) (t : Z) :
  eyeClosureStartTime h = None ->
  allClosed cfg ((ear0, t0) :: samples) ->
  PrimFloat.ltb ear (earThreshold cfg) = true ->
  let a := snd (analyzeDrowsinessPattern cfg
                  (record_all cfg ((ear0, t0) :: samples) h) ear t) in
  eyeClosureDuration a = (t - t0)%Z /\
  isSustainedClosure a = (3000 <=? t - t0)%Z.
Proof.
  intros Hs Hall Hc a.
  assert (D : eyeClosureDuration a = (t - t0)%Z).
  { unfold a. rewrite analyze_duration_closed by exact Hc.
    rewrite (@closed_run_start cfg ear0 t0 samples h Hall Hs). reflexivity. }
  split; [exact D|].
  rewrite <- D. reflexivity.
Qed.

Lemma X4_closure_duration_witness :
  let a := snd (analyzeDrowsinessPattern default_config
                  (record_all default_config
                     [(0.05%float, T0); (0.1%float, (T0 + 40)%Z)] initial_history)
                  0.05 (T0 + 2999)) in
  eyeClosureDuration a = (T0 + 2999 - T0)%Z /\
  isSustainedClosure a = (3000 <=? T0 + 2999 - T0)%Z.
Proof.
  apply (@X4_closure_duration_over_run default_config initial_history
           0.05%float T0 [(0.1%float, (T0 + 40)%Z)] 0.05%float (T0 + 2999)%Z).
  - reflexivity.
  - repeat constructor.
  - reflexivity.
Defined.

(** X5: a frame that is not measured below the threshold (open eyes, or a
    NaN measurement) ends the run: it records the length of the closure in
    [lastEyeClosureDuration], reports a duration of 0 and clears the start
    time, so that the next closed frame starts a new closure at its own
    timestamp. *)
Theorem X5_open_frame_ends_closure (cfg : DrowsinessConfig)
    (h : DetectionHistory) (ear0 : float) (t0 : Z)
    (samples : list (float * Z)) (ear : float) (t : Z) (ear' : float) (t' : Z) :
  eyeClosureStartTime h = None ->
  allClosed cfg ((ear0, t0) :: samples) ->
  PrimFloat.ltb ear (earThreshold cfg) = false ->
  PrimFloat.ltb ear' (earThreshold cfg) = true ->
  let r := analyzeDrowsinessPattern cfg
             (record_all cfg ((ear0, t0) :: samples) h) ear t in
  let r' := analyzeDrowsinessPattern cfg (fst r) ear' t' in
  lastEyeClosureDuration (fst r) = (t - t0)%Z /\
  eyeClosureStartTime (fst r) = None /\
  eyeClosureDuration (snd r) = 0%Z /\
  isSustainedClosure (snd r) = false /\
  eyeClosureStartTime (fst r') = Some t' /\
  eyeClosureDuration (snd r') = 0%Z /\
  lastEyeClosureDuration (fst r') = (t - t0)%Z.
Proof.
  intros Hs Hall Ho Hc r r'.
  pose proof (@closed_run_start cfg ear0 t0 samples h Hall Hs) as Hstart.
  assert (R1 : lastEyeClosureDuration (fst r) = (t - t0)%Z /\
               eyeClosureStartTime (fst r) = None /\
               eyeClosureDuration (snd r) = 0%Z /\
               isSustainedClosure (snd r) = false).
  { unfold r, analyzeDrowsinessPattern.
    cbn [fst snd lastEyeClosureDuration eyeClosureStartTime eyeClosureDuration
         isSustainedClosure].
    rewrite Ho. unfold trackClosure. rewrite Hstart. repeat split. }
  destruct R1 as (L & S & D & U).
  repeat split; try assumption.
  - unfold r'. rewrite analyze_start_closed by exact Hc. rewrite S. reflexivity.
  - unfold r'. rewrite analyze_duration_closed by exact Hc. rewrite S. lia.
  - unfold r', analyzeDrowsinessPattern at 1. cbn [fst lastEyeClosureDuration].
    rewrite Hc. unfold trackClosure. cbn [fst snd]. exact L.
Qed.

Lemma X5_open_frame_witness :
  let r := analyzeDrowsinessPattern default_config
             (record_all default_config [(0.05%float, T0)] initial_history)
             nan (T0 + 2999) in
  let r' := analyzeDrowsinessPattern default_config (fst r) 0.05 (T0 + 3100) in
  lastEyeClosureDuration (fst r) = (T0 + 2999 - T0)%Z /\
  eyeClosureStartTime (fst r) = None /\
  eyeClosureDuration (snd r) = 0%Z /\
  isSustainedClosure (snd r) = false /\
  eyeClosureStartTime (fst r') = Some (T0 + 3100)%Z /\
  eyeClosureDuration (snd r') = 0%Z /\
  lastEyeClosureDuration (fst r') = (T0 + 2999 - T0)%Z.
Proof.
  apply (@X5_open_frame_ends_closure default_config initial_history
           0.05%float T0 [] nan (T0 + 2999)%Z 0.05%float (T0 + 3100)%Z).
  - reflexivity.
  - repeat constructor.
  - reflexivity.
  - reflexivity.
Defined.

(** ** Alerts raised by the frame loop *)

Lemma deriveAlert_message (sustained : bool) (score : float) (isDrowsy : bool)
    (d : Z) :
  (isDrowsy || sustained)%bool = true ->
  snd (deriveAlert sustained score isDrowsy d) <> ""%string.
Proof.
  intros H. unfold deriveAlert.
  destruct sustained; [simpl; discriminate|].
  destruct (PrimFloat.ltb 80 score); [simpl; discriminate|].
  destruct (PrimFloat.ltb 60 score); [simpl; discriminate|].
  destruct (PrimFloat.ltb 40 score); [simpl; discriminate|].
  destruct isDrowsy; [simpl; discriminate | discriminate H].
Qed.

Lemma alertMessage_nonempty (cfg : DrowsinessConfig) (h : DetectionHistory)
    (ear : float) (now : Z) :
  isDrowsy (snd (analyzeDrowsinessPattern cfg h ear now)) = true ->
  alertMessage (snd (analyzeDrowsinessPattern cfg h ear now)) <> ""%string.
Proof.
  unfold analyzeDrowsinessPattern. cbn [snd isDrowsy alertMessage].
  apply deriveAlert_message.
Qed.

(** X6: a frame raises at most one alert and never removes one; an alert
    is raised only on a frame with a measured face whose analysis is
    drowsy, it carries the level and message of that analysis, and its
    message is never empty. *)
Theorem X6_at_most_one_alert_per_frame (predictions : list (list (Point float)))
    (c : Clock) (e : Engine) :
  emitted (detectFaceAndEyes predictions c e) = emitted e \/
  exists face rest avg mouthAR,
    predictions = face :: rest /\
    measure face = Ok (avg, mouthAR) /\
    let a := snd (analyzeDrowsinessPattern (config e) (history e) avg (t_frame c)) in
    isDrowsy a = true /\
    alertMessage a <> ""%string /\
    emitted (detectFaceAndEyes predictions c e) = emitted e ++ [event a c].
Proof.
  destruct predictions as [|face rest]; [left; reflexivity|].
  unfold detectFaceAndEyes. cbn [detectFaceAndEyesIn].
  destruct (measure face) as [[avg mouthAR]|] eqn:M; [|left; reflexivity].
  fold (faceFrame avg c e). rewrite emitted_faceFrame, emitted_raiseAlerts.
  set (a := snd (analyzeDrowsinessPattern (config e) (history e) avg (t_frame c))).
  destruct ((isSustainedClosure a && negb (Level_eqb (level (alertState e)) critical))
            || (isDrowsy a && (alertCooldown (config e) <? t_check c - lastAlertTime e)%Z))%bool
    eqn:F; [right|left; reflexivity].
  assert (D : isDrowsy a = true).
  { apply orb_true_iff in F. destruct F as [F | F]; apply andb_true_iff in F.
    - destruct F as [S _].
      apply (sustained_forces_critical (config e) (history e) avg (t_frame c)). exact S.
    - apply F. }
  exists face, rest, avg, mouthAR.
  repeat split; auto.
  apply alertMessage_nonempty. exact D.
Qed.

Lemma faceFrame_config (avg : float) (c : Clock) (e : Engine) :
  config (faceFrame avg c e) = config e.
Proof. reflexivity. Qed.

Lemma raiseAlertsIn_cooldown_branch (cap : Closure) (a : Analysis) (c : Clock)
    (e : Engine) :
  (isSustainedClosure a && negb (Level_eqb (cap_level cap) critical))%bool = false ->
  (isDrowsy a
   && (alertCooldown (cap_config cap) <? t_check c - cap_lastAlertTime cap)%Z)%bool = true ->
  raiseAlertsIn cap a c e
  = set_lastAlertTime (triggerAlert (alertLevel a) (alertMessage a) (t_trigger c) e)
                      (t_set c).
Proof. intros H1 H2. unfold raiseAlertsIn. rewrite H1, H2. reflexivity. Qed.

Lemma raiseAlertsIn_sustained_branch (cap : Closure) (a : Analysis) (c : Clock)
    (e : Engine) :
  (isSustainedClosure a && negb (Level_eqb (cap_level cap) critical))%bool = true ->
  raiseAlertsIn cap a c e = triggerAlert (alertLevel a) (alertMessage a) (t_trigger c) e.
Proof. intros H1. unfold raiseAlertsIn. rewrite H1. reflexivity. Qed.

(** X7: within one run of the loop the cooldown does not space the
    alerts.  The test reads the [lastAlertTime] held by the running
    callback, not the one an earlier frame of the loop has set: when two
    measured frames of a loop are drowsy and the held [lastAlertTime] is
    more than [alertCooldown] ms old at both, each raises an alert, however
    close the two frames are, although the first stored its own time in
    [lastAlertTime]. *)
Theorem X7_cooldown_not_restarted_within_loop (cap : Closure) (avg1 avg2 : float)
    (c1 c2 : Clock) (e : Engine) :
  let a1 := snd (analyzeDrowsinessPattern (cap_config cap) (history e) avg1 (t_frame c1)) in
  let e1 := faceFrameIn cap avg1 c1 e in
  let a2 := snd (analyzeDrowsinessPattern (cap_config cap) (history e1) avg2 (t_frame c2)) in
  isDrowsy a1 = true ->
  isDrowsy a2 = true ->
  (alertCooldown (cap_config cap) < t_check c1 - cap_lastAlertTime cap)%Z ->
  (alertCooldown (cap_config cap) < t_check c2 - cap_lastAlertTime cap)%Z ->
  emitted e1 = emitted e ++ [event a1 c1] /\
  ((isSustainedClosure a1 && negb (Level_eqb (cap_level cap) critical))%bool = false ->
   lastAlertTime e1 = t_set c1) /\
  emitted (faceFrameIn cap avg2 c2 e1) = emitted e ++ [event a1 c1; event a2 c2].
Proof.
  intros a1 e1 a2 D1 D2 H1 H2.
  apply Z.ltb_lt in H1. apply Z.ltb_lt in H2.
  assert (E1 : emitted e1 = emitted e ++ [event a1 c1]).
  { unfold e1. rewrite emitted_faceFrameIn. fold a1.
    rewrite emitted_raiseAlertsIn, D1, H1, orb_true_r. reflexivity. }
  repeat split.
  - exact E1.
  - intros B1. unfold e1, faceFrameIn. cbn [lastAlertTime]. fold a1.
    rewrite raiseAlertsIn_cooldown_branch; [reflexivity | exact B1 |].
    rewrite D1, H1. reflexivity.
  - rewrite emitted_faceFrameIn. fold a2.
    rewrite emitted_raiseAlertsIn, D2, H2, orb_true_r, E1, <- app_assoc. reflexivity.
Qed.

Lemma X7_cooldown_not_restarted_witness :
  let cap := capture initial_engine in
  let e := frames (closedRun 7 100) initial_engine in
  let c1 := at_time (T0 + 700) in
  let c2 := at_time (T0 + 800) in
  let a1 := snd (analyzeDrowsinessPattern (cap_config cap) (history e) 0 (t_frame c1)) in
  let e1 := faceFrameIn cap 0 c1 e in
  let a2 := snd (analyzeDrowsinessPattern (cap_config cap) (history e1) 0 (t_frame c2)) in
  (emitted e1 = emitted e ++ [event a1 c1] /\
   ((isSustainedClosure a1 && negb (Level_eqb (cap_level cap) critical))%bool = false ->
    lastAlertTime e1 = t_set c1) /\
   emitted (faceFrameIn cap 0 c2 e1) = emitted e ++ [event a1 c1; event a2 c2]) /\
  faceFrameIn cap 0 c2 e1 = frames (closedRun 9 100) initial_engine /\
  map ev_timestamp (emitted (frames (closedRun 9 100) initial_engine))
  = [(T0 + 700)%Z; (T0 + 800)%Z].
Proof.
  split.
  - apply (@X7_cooldown_not_restarted_within_loop (capture initial_engine)
             0%float 0%float (at_time (T0 + 700)) (at_time (T0 + 800))
             (frames (closedRun 7 100) initial_engine)).
    + vm_compute; reflexivity.
    + vm_compute; reflexivity.
    + vm_compute; reflexivity.
    + vm_compute; reflexivity.
  - split; vm_compute; reflexivity.
Defined.

(** X8: an alert raised through the sustained-closure branch does not
    touch [lastAlertTime], and nothing spaces such alerts: in a loop whose
    callback holds a level other than critical, every frame with sustained
    closure raises the critical alert, so two consecutive frames raise it
    twice, each restarting the 10 s auto-dismiss timer. *)
Theorem X8_sustained_alert_repeats_within_loop (cap : Closure) (avg1 avg2 : float)
    (c1 c2 : Clock) (e : Engine) :
  let a1 := snd (analyzeDrowsinessPattern (cap_config cap) (history e) avg1 (t_frame c1)) in
  let e1 := faceFrameIn cap avg1 c1 e in
  let a2 := snd (analyzeDrowsinessPattern (cap_config cap) (history e1) avg2 (t_frame c2)) in
  let e2 := faceFrameIn cap avg2 c2 e1 in
  isSustainedClosure a1 = true ->
  isSustainedClosure a2 = true ->
  cap_level cap <> critical ->
  lastAlertTime e1 = lastAlertTime e /\
  alertState e1 = {| isActive := true; level := critical;
                     message := alertMessage a1; timestamp := t_trigger c1 |} /\
  alertTimeout e1 = Some 10000%Z /\
  emitted e1 = emitted e ++ [event a1 c1] /\
  lastAlertTime e2 = lastAlertTime e /\
  alertState e2 = {| isActive := true; level := critical;
                     message := alertMessage a2; timestamp := t_trigger c2 |} /\
  alertTimeout e2 = Some 10000%Z /\
  emitted e2 = emitted e ++ [event a1 c1; event a2 c2].
Proof.
  intros a1 e1 a2 e2 S1 S2 Hl.
  destruct (sustained_forces_critical (cap_config cap) (history e) avg1 (t_frame c1) S1)
    as [_ L1]. fold a1 in L1.
  destruct (sustained_forces_critical (cap_config cap) (history e1) avg2 (t_frame c2) S2)
    as [_ L2]. fold a2 in L2.
  assert (N : negb (Level_eqb (cap_level cap) critical) = true).
  { destruct (Level_eqb (cap_level cap) critical) eqn:E;
      [apply Level_eqb_eq in E; contradiction | reflexivity]. }
  assert (R1 : raiseAlertsIn cap a1 c1 e
               = triggerAlert (alertLevel a1) (alertMessage a1) (t_trigger c1) e)
    by (apply raiseAlertsIn_sustained_branch; rewrite S1, N; reflexivity).
  assert (R2 : raiseAlertsIn cap a2 c2 e1
               = triggerAlert (alertLevel a2) (alertMessage a2) (t_trigger c2) e1)
    by (apply raiseAlertsIn_sustained_branch; rewrite S2, N; reflexivity).
  assert (T1 : lastAlertTime e1 = lastAlertTime e).
  { unfold e1, faceFrameIn. cbn [lastAlertTime]. fold a1. rewrite R1. reflexivity. }
  assert (E1 : emitted e1 = emitted e ++ [event a1 c1]).
  { unfold e1. rewrite emitted_faceFrameIn. fold a1. rewrite R1. reflexivity. }
  repeat split.
  - exact T1.
  - unfold e1, faceFrameIn. cbn [alertState]. fold a1. rewrite R1.
    unfold triggerAlert, set_alert. cbn [alertState]. rewrite L1. reflexivity.
  - unfold e1, faceFrameIn. cbn [alertTimeout]. fold a1. rewrite R1.
    unfold triggerAlert, set_alert. cbn [alertTimeout]. rewrite L1. reflexivity.
  - exact E1.
  - unfold e2, faceFrameIn. cbn [lastAlertTime]. fold e1. fold a2. rewrite R2.
    exact T1.
  - unfold e2, faceFrameIn. cbn [alertState]. fold e1. fold a2. rewrite R2.
    unfold triggerAlert, set_alert. cbn [alertState]. rewrite L2. reflexivity.
  - unfold e2, faceFrameIn. cbn [alertTimeout]. fold e1. fold a2. rewrite R2.
    unfold triggerAlert, set_alert. cbn [alertTimeout]. rewrite L2. reflexivity.
  - unfold e2. rewrite emitted_faceFrameIn. fold a2. rewrite R2.
    unfold triggerAlert, set_alert. cbn [emitted]. rewrite E1, <- app_assoc.
    reflexivity.
Qed.

Lemma X8_sustained_alert_repeats_witness :
  let cap := capture initial_engine in
  let e := frames [([closedFace], T0)] initial_engine in
  let c1 := at_time (T0 + 3000) in
  let c2 := at_time (T0 + 3100) in
  let a1 := snd (analyzeDrowsinessPattern (cap_config cap) (history e) 0 (t_frame c1)) in
  let e1 := faceFrameIn cap 0 c1 e in
  let a2 := snd (analyzeDrowsinessPattern (cap_config cap) (history e1) 0 (t_frame c2)) in
  let e2 := faceFrameIn cap 0 c2 e1 in
  (lastAlertTime e1 = lastAlertTime e /\
   alertState e1 = {| isActive := true; level := critical;
                      message := alertMessage a1; timestamp := t_trigger c1 |} /\
   alertTimeout e1 = Some 10000%Z /\
   emitted e1 = emitted e ++ [event a1 c1] /\
   lastAlertTime e2 = lastAlertTime e /\
   alertState e2 = {| isActive := true; level := critical;
                      message := alertMessage a2; timestamp := t_trigger c2 |} /\
   alertTimeout e2 = Some 10000%Z /\
   emitted e2 = emitted e ++ [event a1 c1; event a2 c2]) /\
  e2 = frames [([closedFace], T0); ([closedFace], (T0 + 3000)%Z);
               ([closedFace], (T0 + 3100)%Z)] initial_engine /\
  map ev_timestamp (emitted e2) = [(T0 + 3000)%Z; (T0 + 3100)%Z].
Proof.
  split.
  - apply (@X8_sustained_alert_repeats_within_loop (capture initial_engine)
             0%float 0%float (at_time (T0 + 3000)) (at_time (T0 + 3100))
             (frames [([closedFace], T0)] initial_engine)).
    + vm_compute; reflexivity.
    + vm_compute; reflexivity.
    + vm_compute. discriminate.
  - split; vm_compute; reflexivity.
Defined.

(** ** Invariants of every reachable state *)

Lemma reach_snoc (acts : list Action) (a : Action) :
  reach (acts ++ [a]) = perform (reach acts) a.
Proof. unfold reach. rewrite fold_left_app. reflexivity. Qed.

Lemma analyze_history_ok (cfg : DrowsinessConfig) (h : DetectionHistory)
    (ear : float) (now : Z) :
  history_ok h -> history_ok (fst (analyzeDrowsinessPattern cfg h ear now)).
Proof.
  intros (M & T & B & L). unfold history_ok.
  destruct (analyze_blinkStates cfg h ear now) as [isBlink Bs].
  rewrite Bs, analyze_timestamps, analyze_earValues, analyze_maxHistoryLength.
  unfold trim. rewrite M, !length_push.
  destruct (Z.ltb_spec 100 (Z.of_nat (S (List.length (earValues h))))) as [H | H];
    rewrite ?length_push, ?length_shift, ?length_push, ?T, ?B;
    repeat split; simpl; lia.
Qed.

Lemma detectFaceAndEyesIn_cases (cap : Closure) predictions (c : Clock) (e : Engine) :
  detectFaceAndEyesIn cap predictions c e = e \/
  detectFaceAndEyesIn cap predictions c e = noFaceFrame e \/
  exists avg, detectFaceAndEyesIn cap predictions c e = faceFrameIn cap avg c e.
Proof.
  destruct predictions as [|face rest]; [right; left; reflexivity|].
  cbn [detectFaceAndEyesIn].
  destruct (measure face) as [[avg mouthAR]|]; [right; right; eauto | left; reflexivity].
Qed.


Lemma perform_history_ok (e : Engine) (a : Action) :
  history_ok (history e) -> history_ok (history (perform e a)).
Proof.
  intros H. destruct a; cbn [perform]; try exact H.
  - destruct (detectFaceAndEyesIn_cases cap predictions c e) as [-> | [-> | [avg ->]]];
      try exact H.
    unfold faceFrameIn. cbn [history]. apply analyze_history_ok. exact H.
  - unfold autoDismiss. destruct (alertTimeout e); exact H.
  - unfold history_ok. simpl. repeat split; lia.
Qed.

(** X9: in every state the component can reach (frames with or without a
    face, dismissals, timer expiry, test alerts, camera start and stop,
    settings changes and resets) the three history arrays have the same
    length, at most 100, and the capacity is 100. *)
Theorem X9_history_invariant (acts : list Action) :
  history_ok (history (reach acts)).
Proof.
  induction acts as [|a acts IH] using rev_ind.
  - unfold history_ok. simpl. repeat split; lia.
  - rewrite reach_snoc. apply perform_history_ok. exact IH.
Qed.

Lemma Forall_firstn_keep {T : Type} (P : T -> Prop) (n : nat) (l : list T) :
  Forall P l -> Forall P (firstn n l).
Proof.
  revert n. induction l as [|v l IH]; intros n H; destruct n; simpl;
    try constructor.
  - inversion H; assumption.
  - apply IH. inversion H; assumption.
Qed.

Lemma slice_snoc_length {T : Type} (n : Z) (l : list T) (v : T) :
  (1 <= n)%Z -> (List.length l <= Z.to_nat n)%nat ->
  (List.length (slice (- n) (l ++ [v])) <= Z.to_nat n)%nat.
Proof.
  intros Hn Hl. rewrite slice_neg_length by exact Hn. lia.
Qed.

Lemma updateAnalytics_ok blinks ear score lvl now (a : AnalyticsData) :
  analytics_ok a -> analytics_ok (updateAnalytics blinks ear score lvl now a).
Proof.
  intros (M & S & R & C & F). unfold analytics_ok, updateAnalytics.
  cbn [maxDataPoints sessions realTimeData currentSession].
  repeat split; try assumption.
  - rewrite M. apply (slice_snoc_length (n := 300)); [lia | exact R].
  - destruct (currentSession a) as [cs|]; [|exact I].
    destruct C as (C1 & C2 & C3).
    cbn [earHistory drowsinessHistory endTime].
    repeat split.
    + apply (slice_snoc_length (n := 1000)); [lia | exact C1].
    + pose proof (@slice_neg_length _ 1000 (earHistory cs ++ [(now, ear)])
                    ltac:(lia)) as E1.
      pose proof (@slice_neg_length _ 1000 (drowsinessHistory cs ++ [(now, score)])
                    ltac:(lia)) as E2.
      simpl Z.opp in E1, E2. rewrite E1, E2, !length_app, C2. reflexivity.
    + exact C3.
Qed.

Lemma startSession_ok t_id t_start (a : AnalyticsData) :
  analytics_ok a -> analytics_ok (startSession t_id t_start a).
Proof.
  intros (M & S & R & C & F). unfold analytics_ok, startSession.
  cbn [maxDataPoints sessions realTimeData currentSession].
  repeat split; try assumption. simpl. lia.
Qed.

Lemma endSession_ok st t_end t_dur (a : AnalyticsData) :
  analytics_ok a -> analytics_ok (endSession st t_end t_dur a).
Proof.
  intros (M & S & R & C & F). unfold endSession.
  destruct (currentSession a) as [cs|] eqn:E.
  - unfold analytics_ok.
    cbn [maxDataPoints sessions realTimeData currentSession].
    repeat split; try assumption.
    + cbn [List.length]. rewrite length_firstn. lia.
    + constructor; [simpl; discriminate | apply Forall_firstn_keep; exact F].
  - unfold analytics_ok. rewrite E. repeat split; assumption.
Qed.

Lemma perform_analytics_ok (e : Engine) (a : Action) :
  analytics_ok (analytics e) -> analytics_ok (analytics (perform e a)).
Proof.
  intros H. destruct a; cbn [perform]; try exact H.
  - destruct (detectFaceAndEyesIn_cases cap predictions c e) as [-> | [-> | [avg ->]]];
      try exact H.
    unfold faceFrameIn. cbn [analytics]. apply updateAnalytics_ok. exact H.
  - unfold autoDismiss. destruct (alertTimeout e); exact H.
  - apply startSession_ok. exact H.
  - apply endSession_ok. exact H.
Qed.

(** X10: in every reachable state the analytics stay within their caps:
    at most 50 archived sessions, each with an end time, at most 300
    real-time points, and an open session without end time whose two
    histories have the same length, at most 1000. *)
Theorem X10_analytics_invariant (acts : list Action) :
  analytics_ok (analytics (reach acts)).
Proof.
  induction acts as [|a acts IH] using rev_ind.
  - unfold analytics_ok. simpl. repeat split; try lia. constructor.
  - rewrite reach_snoc. apply perform_analytics_ok. exact IH.
Qed.

Lemma triggerAlert_ok (lvl : Level) (msg : string) (now : Z) (e : Engine) :
  msg <> ""%string -> alerts_ok e -> alerts_ok (triggerAlert lvl msg now e).
Proof.
  intros Hm (A & F). unfold alerts_ok, triggerAlert, set_alert.
  cbn [alertState alertTimeout emitted isActive]. split.
  - intros _. discriminate.
  - apply Forall_app. split; [exact F|]. constructor; [exact Hm | constructor].
Qed.

Lemma raiseAlertsIn_ok (cap : Closure) (cfg : DrowsinessConfig) (h : DetectionHistory)
    (ear : float) (now : Z) (c : Clock) (e : Engine) :
  alerts_ok e ->
  alerts_ok (raiseAlertsIn cap (snd (analyzeDrowsinessPattern cfg h ear now)) c e).
Proof.
  intros H. unfold raiseAlertsIn.
  set (a := snd (analyzeDrowsinessPattern cfg h ear now)).
  destruct (isSustainedClosure a && negb (Level_eqb (cap_level cap) critical))%bool
    eqn:B1.
  - apply triggerAlert_ok; [|exact H].
    apply alertMessage_nonempty.
    apply andb_true_iff in B1. destruct B1 as [S _].
    apply (sustained_forces_critical cfg h ear now). exact S.
  - destruct (isDrowsy a
              && (alertCooldown (cap_config cap) <? t_check c - cap_lastAlertTime cap)%Z)%bool
      eqn:B2; [|exact H].
    apply andb_true_iff in B2. destruct B2 as [D _].
    assert (T : alerts_ok (triggerAlert (alertLevel a) (alertMessage a) (t_trigger c) e)).
    { apply triggerAlert_ok; [|exact H]. apply alertMessage_nonempty. exact D. }
    exact T.
Qed.

Lemma perform_alerts_ok (e : Engine) (a : Action) :
  alerts_ok e -> alerts_ok (perform e a).
Proof.
  intros H. destruct a; cbn [perform]; try exact H.
  - destruct (detectFaceAndEyesIn_cases cap predictions c e) as [-> | [-> | [avg ->]]];
      try exact H.
    pose proof (raiseAlertsIn_ok cap (cap_config cap) (history e) avg (t_frame c) c H) as R.
    exact R.
  - destruct H as [_ F]. split; [discriminate | exact F].
  - unfold autoDismiss. destruct (alertTimeout e) eqn:T.
    + destruct H as [_ F]. split; [discriminate | exact F].
    + exact H.
  - unfold testAlert. apply triggerAlert_ok; [destruct lvl; discriminate | exact H].
Qed.

(** X11: in every reachable state an active alert has its auto-dismiss
    timer armed, and no alert was ever raised with an empty message. *)
Theorem X11_alerts_invariant (acts : list Action) :
  alerts_ok (reach acts).
Proof.
  induction acts as [|a acts IH] using rev_ind.
  - split; [discriminate | constructor].
  - rewrite reach_snoc. apply perform_alerts_ok. exact IH.
Qed.

(** ** Sessions *)

(** X12: [endSession] does nothing when no session is open, so ending
    twice is the same as ending once (as when [stopCamera] runs again on
    unmount): the session is archived a single time. *)
Theorem X12_endSession_idempotent (st st' : Stats) (t_end t_dur t_end' t_dur' : Z)
    (prev : AnalyticsData) :
  (currentSession prev = None -> endSession st t_end t_dur prev = prev) /\
  currentSession (endSession st t_end t_dur prev) = None /\
  endSession st' t_end' t_dur' (endSession st t_end t_dur prev)
  = endSession st t_end t_dur prev.
Proof.
  assert (N : currentSession (endSession st t_end t_dur prev) = None).
  { unfold endSession. destruct (currentSession prev) eqn:E; [reflexivity | exact E]. }
  repeat split.
  - intros E. unfold endSession. rewrite E. reflexivity.
  - exact N.
  - unfold endSession at 1. rewrite N. reflexivity.
Qed.

Lemma perform_stats_avgEAR (e : Engine) (a : Action) :
  stats_avgEAR (stats (perform e a)) = stats_avgEAR (stats e) \/
  stats_avgEAR (stats (perform e a)) = 0%float.
Proof.
  destruct a; cbn [perform]; try (left; reflexivity).
  - destruct (detectFaceAndEyesIn_cases cap predictions c e) as [-> | [-> | [avg ->]]];
      left; reflexivity.
  - left. unfold autoDismiss. destruct (alertTimeout e); reflexivity.
  - right. reflexivity.
Qed.

Lemma perform_sessions_avgEAR (e : Engine) (a : Action) :
  stats_avgEAR (stats e) = 0%float ->
  Forall (fun s => session_avgEAR s = 0%float) (sessions (analytics e)) ->
  Forall (fun s => session_avgEAR s = 0%float) (sessions (analytics (perform e a))).
Proof.
  intros Hs H. destruct a; cbn [perform]; try exact H.
  - destruct (detectFaceAndEyesIn_cases cap predictions c e) as [-> | [-> | [avg ->]]];
      exact H.
  - unfold autoDismiss. destruct (alertTimeout e); exact H.
  - unfold stopCamera. cbn [analytics]. unfold endSession.
    destruct (currentSession (analytics e)); [|exact H].
    cbn [sessions]. constructor; [exact Hs | apply Forall_firstn_keep; exact H].
Qed.

(** X13: nothing ever writes [stats.avgEAR], so it is 0 in every reachable
    state, and every archived session records an [avgEAR] of 0, whatever
    was measured during the session. *)
Theorem X13_archived_avgEAR_is_zero (acts : list Action) :
  stats_avgEAR (stats (reach acts)) = 0%float /\
  Forall (fun s => session_avgEAR s = 0%float) (sessions (analytics (reach acts))).
Proof.
  induction acts as [|a acts [IH1 IH2]] using rev_ind.
  - split; [reflexivity | constructor].
  - rewrite reach_snoc. split.
    + destruct (perform_stats_avgEAR (reach acts) a) as [E | E];
        [rewrite E; exact IH1 | exact E].
    + apply perform_sessions_avgEAR; assumption.
Qed.

(** X14: the totals of an archived session are the component's running
    counters at the moment it ends; starting a session does not reset
    them.  A session started and ended at once, with no frame in between,
    is archived with the blink and alert counts accumulated before it
    began, and with empty histories. *)
Theorem X14_session_totals_carry_over (e : Engine)
    (t_id t_start t_end t_dur : Z) :
  let e' := stopCamera t_end t_dur (startCamera t_id t_start e) in
  currentSession (analytics e') = None /\
  exists archived,
    sessions (analytics e') = archived :: firstn 49 (sessions (analytics e)) /\
    id archived = ("session_" ++ string_of_Z t_id)%string /\
    startTime archived = t_start /\
    endTime archived = Some t_end /\
    duration archived = (t_dur - t_start)%Z /\
    totalBlinks archived = blinkCount (stats e) /\
    totalAlerts archived = alertCount (stats e) /\
    earHistory archived = [] /\
    drowsinessHistory archived = [] /\
    alertsByLevel archived
    = [("low", 0); ("medium", 0); ("high", 0); ("critical", 0)]%string%Z.
Proof.
  split; [reflexivity|].
  eexists. split; [reflexivity|]. repeat split.
Qed.

Lemma countOf_bump_same (key : string) (obj : list (string * Z)) :
  countOf key (bump key obj) = (countOf key obj + 1)%Z.
Proof.
  induction obj as [|[k v] obj IH]; simpl.
  - rewrite String.eqb_refl. reflexivity.
  - destruct (String.eqb k key) eqn:E; simpl; rewrite E; auto.
Qed.

Lemma countOf_bump_other (key other : string) (obj : list (string * Z)) :
  other <> key -> countOf other (bump key obj) = countOf other obj.
Proof.
  intros Hne. induction obj as [|[k v] obj IH]; simpl.
  - destruct (String.eqb key other) eqn:E; [|reflexivity].
    apply String.eqb_eq in E. congruence.
  - destruct (String.eqb k key) eqn:E; simpl.
    + apply String.eqb_eq in E. subst k.
      destruct (String.eqb key other) eqn:E2; [|reflexivity].
      apply String.eqb_eq in E2. congruence.
    + destruct (String.eqb k other); auto.
Qed.

Lemma level_name_inj (a b : Level) : level_name a = level_name b -> a = b.
Proof. destruct a, b; simpl; intros H; try reflexivity; discriminate H. Qed.

(** X15: recording a frame with an alert level into an open session adds
    exactly one to that level's entry of [alertsByLevel] and leaves every
    other entry as it was; recording a frame without a level leaves them
    all unchanged.  The older sessions are not touched. *)
Theorem X15_alertsByLevel_counts (blinks : Z) (ear score : float)
    (lvl : option Level) (now : Z) (prev : AnalyticsData) (cs : SessionData) :
  currentSession prev = Some cs ->
  exists cs',
    currentSession (updateAnalytics blinks ear score lvl now prev) = Some cs' /\
    (forall l,
        countOf (level_name l) (alertsByLevel cs')
        = (countOf (level_name l) (alertsByLevel cs)
           + if match lvl with Some l' => Level_eqb l' l | None => false end
             then 1 else 0)%Z) /\
    id cs' = id cs /\ startTime cs' = startTime cs /\
    duration cs' = (now - startTime cs)%Z /\
    sessions (updateAnalytics blinks ear score lvl now prev) = sessions prev.
Proof.
  intros E. unfold updateAnalytics. cbn [currentSession sessions]. rewrite E.
  eexists. split; [reflexivity|].
  cbn [alertsByLevel id startTime duration].
  repeat split.
  intros l. destruct lvl as [l'|]; [|lia].
  destruct (Level_eqb l' l) eqn:Q.
  - apply Level_eqb_eq in Q. subst l'. apply countOf_bump_same.
  - rewrite countOf_bump_other; [lia|].
    intros H. apply level_name_inj in H. subst l'.
    destruct l; discriminate Q.
Qed.

Lemma X15_alertsByLevel_witness :
  exists cs',
    currentSession (updateAnalytics 0 0.1 85 (Some critical) (T0 + 100) openAnalytics)
    = Some cs' /\
    (forall l,
        countOf (level_name l) (alertsByLevel cs')
        = (countOf (level_name l) (alertsByLevel (newSession T0 T0))
           + if Level_eqb critical l then 1 else 0)%Z) /\
    id cs' = id (newSession T0 T0) /\ startTime cs' = startTime (newSession T0 T0) /\
    duration cs' = (T0 + 100 - startTime (newSession T0 T0))%Z /\
    sessions (updateAnalytics 0 0.1 85 (Some critical) (T0 + 100) openAnalytics)
    = sessions openAnalytics.
Proof.
  apply (@X15_alertsByLevel_counts 0%Z 0.1%float 85%float (Some critical)
           (T0 + 100)%Z openAnalytics (newSession T0 T0)).
  reflexivity.
Defined.

(** ** The running maximum of the score *)

Section RunningMax.

Open Scope float_scope.

Lemma SFcompare_refl (u : spec_float) :
  u <> S754_nan -> SFcompare u u = Some Eq.
Proof.
  destruct u as [s | s | | s m e]; simpl; intros H; try reflexivity.
  - destruct s; reflexivity.
  - contradiction.
  - rewrite Z.compare_refl, Pos.compare_cont_refl. destruct s; reflexivity.
Qed.

Lemma leb_refl (v : float) : is_nan v = false -> (v <=? v) = true.
Proof.
  intros N. rewrite leb_spec. unfold SFleb.
  rewrite SFcompare_refl by (apply is_nan_spec_false; exact N). reflexivity.
Qed.

(** [Math.max] is NaN exactly when an argument is, and otherwise is one of
    its arguments and at least both *)
Lemma Math_max_spec (a b : float) :
  is_nan (Math_max a b) = (is_nan a || is_nan b)%bool /\
  (is_nan a = false -> is_nan b = false ->
   (Math_max a b = a \/ Math_max a b = b) /\
   (a <=? Math_max a b) = true /\ (b <=? Math_max a b) = true).
Proof.
  unfold Math_max.
  destruct (is_nan a) eqn:Na; [split; [reflexivity | discriminate]|].
  destruct (is_nan b) eqn:Nb; [split; [reflexivity | discriminate]|].
  cbn [orb].
  destruct (a <? b) eqn:L1.
  - split; [exact Nb|]. intros _ _.
    repeat split; [right; reflexivity | apply ltb_leb; exact L1 | apply leb_refl; exact Nb].
  - destruct (b <? a) eqn:L2.
    + split; [exact Na|]. intros _ _.
      repeat split; [left; reflexivity | apply leb_refl; exact Na | apply ltb_leb; exact L2].
    + destruct (get_sign a).
      * split; [exact Nb|]. intros _ _.
        repeat split; [right; reflexivity | apply not_ltb_leb; auto | apply leb_refl; exact Nb].
      * split; [exact Na|]. intros _ _.
        repeat split; [left; reflexivity | apply leb_refl; exact Na | apply not_ltb_leb; auto].
Qed.

End RunningMax.

(** X16: recording a frame never lowers the session's
    [maxDrowsinessScore]: the new value is the old one or the frame's
    score and is at least both, except that a NaN, in the old value or in
    the score, makes it NaN, after which it stays NaN. *)
Theorem X16_maxDrowsinessScore_monotone (blinks : Z) (ear score : float)
    (lvl : option Level) (now : Z) (prev : AnalyticsData) (cs : SessionData) :
  currentSession prev = Some cs ->
  exists cs',
    currentSession (updateAnalytics blinks ear score lvl now prev) = Some cs' /\
    PrimFloat.is_nan (maxDrowsinessScore cs')
    = (PrimFloat.is_nan (maxDrowsinessScore cs) || PrimFloat.is_nan score)%bool /\
    (PrimFloat.is_nan (maxDrowsinessScore cs) = false ->
     PrimFloat.is_nan score = false ->
     (maxDrowsinessScore cs' = maxDrowsinessScore cs \/ maxDrowsinessScore cs' = score) /\
     PrimFloat.leb (maxDrowsinessScore cs) (maxDrowsinessScore cs') = true /\
     PrimFloat.leb score (maxDrowsinessScore cs') = true).
Proof.
  intros E. unfold updateAnalytics. cbn [currentSession]. rewrite E.
  eexists. split; [reflexivity|]. cbn [maxDrowsinessScore].
  apply Math_max_spec.
Qed.

Lemma X16_maxDrowsinessScore_witness :
  exists cs',
    currentSession (updateAnalytics 0 0.1 85 None (T0 + 100) openAnalytics) = Some cs' /\
    PrimFloat.is_nan (maxDrowsinessScore cs')
    = (PrimFloat.is_nan (maxDrowsinessScore (newSession T0 T0)) || PrimFloat.is_nan 85)%bool /\
    (PrimFloat.is_nan (maxDrowsinessScore (newSession T0 T0)) = false ->
     PrimFloat.is_nan 85 = false ->
     (maxDrowsinessScore cs' = maxDrowsinessScore (newSession T0 T0)
      \/ maxDrowsinessScore cs' = 85%float) /\
     PrimFloat.leb (maxDrowsinessScore (newSession T0 T0)) (maxDrowsinessScore cs') = true /\
     PrimFloat.leb 85 (maxDrowsinessScore cs') = true).
Proof.
  apply (@X16_maxDrowsinessScore_monotone 0%Z 0.1%float 85%float None
           (T0 + 100)%Z openAnalytics (newSession T0 T0)).
  reflexivity.
Defined.

(** ** Durations on display *)

(** X17: for a non-negative duration, [formatDuration] shows the whole
    seconds of the duration split into hours, minutes below 60 and seconds
    below 60 that recombine to it; it shows the hours only when there is at
    least one, and the minutes only when there is at least one minute. *)
Theorem X17_formatDuration_parts (ms : Z) :
  (0 <= ms)%Z ->
  let total := (ms / 1000)%Z in
  let h := (total / 3600)%Z in
  let m := ((total / 60) mod 60)%Z in
  let s := (total mod 60)%Z in
  (h * 3600 + m * 60 + s = total)%Z /\
  (0 <= h)%Z /\ (0 <= m < 60)%Z /\ (0 <= s < 60)%Z /\
  formatDuration ms
  = if (0 <? h)%Z then
      (string_of_Z h ++ "h " ++ string_of_Z m ++ "m " ++ string_of_Z s ++ "s")%string
    else if (0 <? m)%Z then
      (string_of_Z m ++ "m " ++ string_of_Z s ++ "s")%string
    else (string_of_Z s ++ "s")%string.
Proof.
  intros Hms total h m s.
  assert (Ht : (0 <= total)%Z) by (apply Z.div_pos; lia).
  assert (Hq : (0 <= total / 60)%Z) by (apply Z.div_pos; lia).
  assert (Hh : (total / 60 / 60 = h)%Z).
  { unfold h. rewrite Z.div_div by lia. reflexivity. }
  assert (Hh0 : (0 <= h)%Z) by (rewrite <- Hh; apply Z.div_pos; lia).
  assert (Em : ((total / 60) mod 60 = m)%Z) by reflexivity.
  assert (Es : (total mod 60 = s)%Z) by reflexivity.
  pose proof (Z.div_mod total 60 ltac:(lia)) as D1.
  pose proof (Z.div_mod (total / 60) 60 ltac:(lia)) as D2.
  pose proof (Z.mod_pos_bound total 60 ltac:(lia)) as B1.
  pose proof (Z.mod_pos_bound (total / 60) 60 ltac:(lia)) as B2.
  rewrite Hh, Em in D2. rewrite Em in B2. rewrite Es in D1, B1.
  clearbody h m s.
  repeat split; try lia.
  unfold formatDuration. fold total. rewrite Hh.
  rewrite !Z.rem_mod_nonneg by lia. rewrite Em, Es.
  destruct (0 <? h)%Z eqn:E1; [reflexivity|].
  apply Z.ltb_ge in E1.
  replace (total / 60)%Z with m by lia.
  destruct (0 <? m)%Z eqn:E2; [reflexivity|].
  apply Z.ltb_ge in E2.
  replace total with s by lia. reflexivity.
Qed.

Lemma X17_formatDuration_witness :
  formatDuration 3725999 = "1h 2m 5s"%string.
Proof.
  destruct (@X17_formatDuration_parts 3725999 ltac:(lia)) as (_ & _ & _ & _ & F).
  rewrite F. reflexivity.
Defined.

(** ** Resetting the settings *)



(** ** Faces with missing landmarks *)

Lemma pick_length (indices : list nat) (keypoints : list (Point float)) :
  List.length (pick indices keypoints)
  = List.length (filter (fun i => (i <? List.length keypoints)%nat) indices).
Proof.
  unfold pick. induction indices as [|i indices IH]; [reflexivity|].
  cbn [flat_map filter]. rewrite length_app, IH.
  destruct (Nat.ltb_spec i (List.length keypoints)) as [H | H].
  - apply nth_error_Some in H.
    destruct (nth_error keypoints i); [reflexivity | contradiction].
  - apply nth_error_None in H. rewrite H. reflexivity.
Qed.

Lemma calculateMouthAspectRatio_TypeError_iff (mouthPoints : list (Point float)) :
  calculateMouthAspectRatio mouthPoints = TypeError <->
  List.length mouthPoints = 6%nat \/ List.length mouthPoints = 7%nat.
Proof.
  split; [|apply calculateMouthAspectRatio_throws].
  destruct mouthPoints as [|p0 [|p1 [|p2 [|p3 [|p4 [|p5 [|p6 [|p7 rest]]]]]]]];
    intros H; try discriminate H; auto.
Qed.

Lemma measure_TypeError_iff (keypoints : list (Point float)) :
  measure keypoints = TypeError <->
  calculateMouthAspectRatio (pick mouthIndices keypoints) = TypeError.
Proof.
  unfold measure.
  destruct (calculateEyeAspectRatio_total (pick leftEyeIndices keypoints)) as [l ->].
  destruct (calculateEyeAspectRatio_total (pick rightEyeIndices keypoints)) as [r ->].
  cbn [bind].
  destruct (calculateMouthAspectRatio (pick mouthIndices keypoints));
    cbn [bind]; split; intros H; try discriminate H; reflexivity.
Qed.

Lemma mouth_points_found (n : nat) :
  let found := List.length (filter (fun i => (i <? n)%nat) mouthIndices) in
  (found = 6%nat \/ found = 7%nat) <-> (315 <= n <= 320)%nat.
Proof.
  intros found. unfold found.
  destruct (Nat.le_gt_cases n 405) as [Hs | Hl].
  - assert (All : forallb (fun n =>
              Bool.eqb
                (let f := List.length (filter (fun i => (i <? n)%nat) mouthIndices) in
                 ((f =? 6) || (f =? 7))%nat%bool)
                ((315 <=? n) && (n <=? 320))%nat%bool)
              (seq 0 406) = true) by (vm_compute; reflexivity).
    rewrite forallb_forall in All.
    specialize (All n ltac:(apply in_seq; lia)).
    apply Bool.eqb_prop in All. cbv zeta in All.
    rewrite <- (Nat.eqb_eq _ 6), <- (Nat.eqb_eq _ 7), <- orb_true_iff, All.
    rewrite andb_true_iff, !Nat.leb_le. reflexivity.
  - assert (F : filter (fun i => (i <? n)%nat) mouthIndices = mouthIndices).
    { apply forallb_filter_id. apply forallb_forall. intros i Hi.
      apply Nat.ltb_lt.
      assert (B : forallb (fun i => (i <=? 405)%nat) mouthIndices = true)
        by (vm_compute; reflexivity).
      rewrite forallb_forall in B. specialize (B i Hi).
      apply Nat.leb_le in B. lia. }
    rewrite F. split.
    + intros [H | H]; vm_compute in H; discriminate H.
    + lia.
Qed.

(** X19: measuring a face throws exactly when it has between 315 and 320
    keypoints: then 6 or 7 of the mouth landmarks exist, which passes the
    guard of [calculateMouthAspectRatio] and reads past the end.  Such a
    frame is dropped: the exception is caught and the state, in
    particular the history, is left as it was.  With any other number of
    keypoints the face is measured. *)
Theorem X19_measure_throws_iff (keypoints : list (Point float))
    (rest : list (list (Point float))) (c : Clock) (e : Engine) :
  (measure keypoints = TypeError <-> (315 <= List.length keypoints <= 320)%nat) /\
  (measure keypoints = TypeError -> detectFaceAndEyes (keypoints :: rest) c e = e) /\
  (measure keypoints <> TypeError ->
   exists avg, detectFaceAndEyes (keypoints :: rest) c e = faceFrame avg c e).
Proof.
  assert (Iff : measure keypoints = TypeError
                <-> (315 <= List.length keypoints <= 320)%nat).
  { rewrite measure_TypeError_iff, calculateMouthAspectRatio_TypeError_iff, pick_length.
    apply mouth_points_found. }
  split; [exact Iff|]. split.
  - intros H. unfold detectFaceAndEyes. cbn [detectFaceAndEyesIn].
    rewrite H. reflexivity.
  - intros H. unfold detectFaceAndEyes. cbn [detectFaceAndEyesIn].
    destruct (measure keypoints) as [[avg mouthAR]|]; [|contradiction].
    exists avg. reflexivity.
Qed.

(** ** What the blink rate counts *)

Section BlinkFrames.

Variable cfg : DrowsinessConfig.
Variables t0 bound : Z.

Lemma repeat_snoc {T : Type} (v : T) (k : nat) : repeat v k ++ [v] = repeat v (S k).
Proof. induction k as [|k IH]; simpl; [reflexivity | rewrite IH; reflexivity]. Qed.

Lemma blinking_step (k : nat) (h : DetectionHistory) (ear : float) (ts : Z) :
  blinking t0 bound k h -> (k < 100)%nat ->
  PrimFloat.ltb ear (earThreshold cfg) = true ->
  (ts - t0 < 500)%Z -> (bound < ts)%Z ->
  blinking t0 bound (S k) (fst (analyzeDrowsinessPattern cfg h ear ts)) /\
  blinkRate (snd (analyzeDrowsinessPattern cfg h ear ts))
  = countRecentBlinks (timestamps h ++ [ts]) (repeat true (S k)) (ts - 60000).
Proof.
  intros (M & B & T & E & S & F) Hk Hc Hd Hb.
  assert (O : (maxHistoryLength h <? Z.of_nat (List.length (push (earValues h) ear)))%Z
              = false).
  { rewrite M, length_push, E. apply Z.ltb_ge. lia. }
  assert (D : snd (trackClosure h (PrimFloat.ltb ear (earThreshold cfg)) ts)
              = (ts - t0)%Z).
  { rewrite Hc. unfold trackClosure. rewrite S. reflexivity. }
  assert (K : (PrimFloat.ltb ear (earThreshold cfg)
               && (snd (trackClosure h (PrimFloat.ltb ear (earThreshold cfg)) ts) <? 500)%Z)%bool
              = true).
  { rewrite D, Hc. apply Z.ltb_lt. exact Hd. }
  split.
  - unfold blinking, analyzeDrowsinessPattern.
    cbn [fst maxHistoryLength blinkStates timestamps earValues eyeClosureStartTime].
    rewrite O, K, B. repeat split.
    + exact M.
    + apply repeat_snoc.
    + rewrite length_push, T. reflexivity.
    + rewrite length_push, E. reflexivity.
    + rewrite Hc. unfold trackClosure. rewrite S. reflexivity.
    + unfold push. apply Forall_app. split; [exact F | repeat constructor; exact Hb].
  - unfold analyzeDrowsinessPattern. cbn [snd blinkRate].
    rewrite O, K, B. unfold push. rewrite repeat_snoc. reflexivity.
Qed.

Lemma blinking_run (samples : list (float * Z)) : forall k h,
  blinking t0 bound k h -> (k + List.length samples <= 100)%nat ->
  allClosed cfg samples ->
  Forall (fun s => (snd s - t0 < 500)%Z /\ (bound < snd s)%Z) samples ->
  blinking t0 bound (k + List.length samples) (record_all cfg samples h).
Proof.
  induction samples as [|[ear ts] samples IH]; intros k h Hb Hk Hall Ht.
  - rewrite Nat.add_0_r. exact Hb.
  - inversion Hall as [|? ? Hc Hrest]; subst.
    inversion Ht as [|? ? [Hd Hbd] Htrest]; subst. simpl in Hc, Hd, Hbd, Hk.
    change (record_all cfg ((ear, ts) :: samples) h)
      with (record_all cfg samples (fst (analyzeDrowsinessPattern cfg h ear ts))).
    replace (k + List.length ((ear, ts) :: samples))%nat
      with (S k + List.length samples)%nat by (simpl; lia).
    apply IH; try assumption; [|lia].
    apply blinking_step; try assumption. lia.
Qed.

Lemma count_all_flagged (N : nat) (ts : list Z) : forall (s : nat) (init : Z),
  (s + List.length ts <= N)%nat ->
  Forall (fun t => (bound < t)%Z) ts ->
  fold_left
    (fun (count : Z) '(index, t) =>
       if ((bound <? t)%Z && nth index (repeat true N) false)%bool
       then (count + 1)%Z else count)
    (combine (seq s (List.length ts)) ts) init
  = (init + Z.of_nat (List.length ts))%Z.
Proof.
  induction ts as [|t ts IH]; intros s init Hs F.
  - simpl. lia.
  - inversion F as [|? ? Ht Frest]; subst. simpl in Hs.
    cbn [List.length seq combine fold_left].
    replace (bound <? t)%Z with true by (symmetry; apply Z.ltb_lt; exact Ht).
    replace (nth s (repeat true N) false) with true.
    + cbn [andb]. rewrite IH by (assumption || lia). lia.
    + symmetry. apply nth_repeat_lt. lia.
Qed.

End BlinkFrames.

(** X20: [blinkRate] counts frames, not blinks.  From an empty history,
    when the eyes close at [t0] and stay closed, every frame processed
    during the first 500 ms of the closure is flagged as a blink, so the
    frame that ends such a run of [n] frames reports [blinkRate = n]: one
    blink is counted once per frame it spans. *)
Theorem X20_blinkRate_counts_frames (cfg : DrowsinessConfig)
    (ear0 : float) (t0 : Z) (samples : list (float * Z)) (ear : float) (t : Z) :
  allClosed cfg ((ear0, t0) :: samples) ->
  PrimFloat.ltb ear (earThreshold cfg) = true ->
  (List.length samples + 2 <= 100)%nat ->
  Forall (fun s => (t0 <= snd s <= t)%Z) samples ->
  (t0 <= t < t0 + 500)%Z ->
  blinkRate (snd (analyzeDrowsinessPattern cfg
                    (record_all cfg ((ear0, t0) :: samples) initial_history) ear t))
  = Z.of_nat (List.length samples + 2).
Proof.
  intros Hall Hc Hn Ht Hend.
  inversion Hall as [|? ? Hc0 Hrest]; subst. simpl in Hc0.
  change (record_all cfg ((ear0, t0) :: samples) initial_history)
    with (record_all cfg samples
            (fst (analyzeDrowsinessPattern cfg initial_history ear0 t0))).
  assert (B1 : blinking t0 (t - 60000) 1
                 (fst (analyzeDrowsinessPattern cfg initial_history ear0 t0))).
  { unfold blinking, analyzeDrowsinessPattern.
    cbn [fst maxHistoryLength blinkStates timestamps earValues eyeClosureStartTime].
    rewrite Hc0. unfold trackClosure. simpl.
    rewrite Z.sub_diag. simpl. repeat split. repeat constructor. lia. }
  assert (Bn : blinking t0 (t - 60000) (1 + List.length samples)
                 (record_all cfg samples
                    (fst (analyzeDrowsinessPattern cfg initial_history ear0 t0)))).
  { apply blinking_run; try assumption; [lia|].
    apply Forall_impl with (2 := Ht). intros s Hs. lia. }
  destruct (@blinking_step cfg t0 (t - 60000) (1 + List.length samples) _ ear t Bn
              ltac:(lia) Hc ltac:(lia) ltac:(lia)) as [_ R].
  rewrite R. destruct Bn as (_ & _ & T & _ & _ & F).
  unfold countRecentBlinks.
  assert (L : List.length
                (timestamps
                   (record_all cfg samples
                      (fst (analyzeDrowsinessPattern cfg initial_history ear0 t0)))
                 ++ [t]) = S (1 + List.length samples))
    by (rewrite length_app, T; simpl; lia).
  rewrite (@count_all_flagged (t - 60000) (S (1 + List.length samples))).
  - rewrite L. lia.
  - rewrite L. lia.
  - apply Forall_app. split; [exact F | repeat constructor; lia].
Qed.

Lemma X20_blinkRate_witness :
  blinkRate (snd (analyzeDrowsinessPattern default_config
                    (record_all default_config
                       [(0.05%float, T0); (0.05%float, (T0 + 100)%Z)] initial_history)
                    0.05 (T0 + 200)))
  = Z.of_nat (List.length [(0.05%float, (T0 + 100)%Z)] + 2).
Proof.
  apply (@X20_blinkRate_counts_frames default_config 0.05%float T0
           [(0.05%float, (T0 + 100)%Z)] 0.05%float (T0 + 200)%Z).
  - repeat constructor.
  - reflexivity.
  - simpl; lia.
  - repeat constructor; simpl; unfold T0; lia.
  - unfold T0; lia.
Defined.

(** ** Dismissal *)

(** X21: dismissing is idempotent and absorbs the timer: dismissing twice,
    or letting the timer fire before or after a dismissal, gives the state
    of a single dismissal.  A dismissal only clears [isActive] and the
    timer: the recorded level, message and time of the alert, the trace of
    raised alerts and [lastAlertTime] stay as they were, so the cooldown is
    not shortened by dismissing. *)
Theorem X21_dismissAlert_idempotent (e : Engine) :
  dismissAlert (dismissAlert e) = dismissAlert e /\
  autoDismiss (dismissAlert e) = dismissAlert e /\
  dismissAlert (autoDismiss e) = dismissAlert e /\
  isActive (alertState (dismissAlert e)) = false /\
  alertTimeout (dismissAlert e) = None /\
  level (alertState (dismissAlert e)) = level (alertState e) /\
  message (alertState (dismissAlert e)) = message (alertState e) /\
  timestamp (alertState (dismissAlert e)) = timestamp (alertState e) /\
  emitted (dismissAlert e) = emitted e /\
  lastAlertTime (dismissAlert e) = lastAlertTime e /\
  history (dismissAlert e) = history e.
Proof.
  repeat split.
  unfold autoDismiss. destruct (alertTimeout e); reflexivity.
Qed.

(** ** Levels that are counted *)

Lemma reportedLevel_not_low (a : Analysis) : reportedLevel a <> Some low.
Proof.
  unfold reportedLevel. destruct (alertLevel a); simpl; discriminate.
Qed.

Lemma updateAnalytics_low_uncounted blinks ear score lvl now (a : AnalyticsData) :
  lvl <> Some low ->
  low_uncounted a -> low_uncounted (updateAnalytics blinks ear score lvl now a).
Proof.
  intros Hl (C & F). unfold low_uncounted, updateAnalytics.
  cbn [currentSession sessions]. split; [|exact F].
  destruct (currentSession a) as [cs|]; [|exact I].
  cbn [alertsByLevel].
  destruct lvl as [l|]; [|exact C].
  rewrite countOf_bump_other; [exact C|].
  destruct l; simpl; try discriminate. contradiction Hl. reflexivity.
Qed.

Lemma perform_low_uncounted (e : Engine) (a : Action) :
  low_uncounted (analytics e) -> low_uncounted (analytics (perform e a)).
Proof.
  intros H. destruct a; cbn [perform]; try exact H.
  - destruct (detectFaceAndEyesIn_cases cap predictions c e) as [-> | [-> | [avg ->]]];
      try exact H.
    unfold faceFrame. cbn [analytics].
    apply updateAnalytics_low_uncounted; [apply reportedLevel_not_low | exact H].
  - unfold autoDismiss. destruct (alertTimeout e); exact H.
  - destruct H as [_ F]. split; [reflexivity | exact F].
  - destruct H as [C F]. unfold stopCamera. cbn [analytics]. unfold endSession.
    destruct (currentSession (analytics e)) as [cs|] eqn:E.
    + split; [exact I|]. cbn [sessions].
      constructor; [exact C | apply Forall_firstn_keep; exact F].
    + split; [rewrite E; exact I | exact F].
Qed.

(** X22: alerts of level low are never counted: in every reachable state
    the [low] entry of [alertsByLevel] is 0 in the open session and in
    every archived session, because a frame whose level is low is
    recorded without a level. *)
Theorem X22_low_alerts_never_counted (acts : list Action) :
  low_uncounted (analytics (reach acts)).
Proof.
  induction acts as [|a acts IH] using rev_ind.
  - split; [exact I | constructor].
  - rewrite reach_snoc. apply perform_low_uncounted. exact IH.
Qed.
